(** * ip-rep-checker.py: a shallow embedding and its properties

    The script asks api.ipify.org for the public address of the caller,
    looks the address up on AbuseIPDB and writes a text report.  Everything
    the script does apart from formatting is an effect on the outside world
    (environment variables, two HTTP requests, the clock, the file system,
    the terminal, the exit status), so the embedding is a small
    reader/state/exception monad [Py] over an explicit [world], driven by an
    [env] that fixes how the outside world answers.

    JSON numbers are modelled as integers: the numeric fields of an AbuseIPDB
    record (score, report counts, category codes) are integers. *)

From Stdlib Require Import ZArith DecimalString Ascii String Lia.
From stdpp Require Import base option list strings gmap.

#[local] Set Warnings "-register-all".
#[local] Open Scope Z_scope.

(** ** Python values *)

(** What [response.json()] can return.  A Python [dict] built by the JSON
    parser keeps insertion order and has unique keys; it is kept as an
    association list because [str] prints it in that order. *)
Inductive json : Type :=
  | JNull
  | JBool (b : bool)
  | JInt (n : Z)
  | JStr (s : string)
  | JList (l : list json)
  | JDict (d : list (string * json)).

(** Exceptions that matter to the control flow of the script.
    [RequestException] stands for [requests.RequestException] and all its
    subclasses; the next five are ordinary subclasses of [Exception];
    [KeyboardInterrupt] and [SystemExit] derive from [BaseException] only. *)
Inductive exn : Type :=
  | RequestException (msg : string)
  | KeyError (msg : string)
  | TypeError (msg : string)
  | AttributeError (msg : string)
  | ValueError (msg : string)
  | OSError (msg : string)
  | KeyboardInterrupt
  | SystemExit (code : Z).

Inductive outcome (A : Type) : Type :=
  | Ret (a : A)
  | Raise (e : exn).
Arguments Ret {A} a.
Arguments Raise {A} e.

(** [except requests.RequestException] *)
Definition is_RequestException (e : exn) : bool :=
  match e with RequestException _ => true | _ => false end.

(** [except Exception] *)
Definition is_Exception (e : exn) : bool :=
  match e with KeyboardInterrupt | SystemExit _ => false | _ => true end.

(** [str(e)], as interpolated in the error messages. *)
Definition exn_str (e : exn) : string :=
  match e with
  | RequestException m | KeyError m | TypeError m
  | AttributeError m | ValueError m | OSError m => m
  | KeyboardInterrupt => ""
  | SystemExit c => NilZero.string_of_int (Z.to_int c)
  end.

(** The one builtin that is not reimplemented here: [repr] on a [str]
    (quoting and escaping depend on the Unicode database).  It is only
    reached when a list or a dict is interpolated into the report. *)
Class PyRuntime := { repr_str : string → string }.

Definition nl : string := String "010"%char EmptyString.

Fixpoint str_repeat (s : string) (n : nat) : string :=
  match n with
  | O => ""
  | S n' => s +:+ str_repeat s n'
  end.

(** [needle in hay] on two [str]. *)
Fixpoint str_contains (needle hay : string) : bool :=
  String.prefix needle hay ||
  match hay with
  | EmptyString => false
  | String _ hay' => str_contains needle hay'
  end.

Fixpoint str_chars (s : string) : list string :=
  match s with
  | EmptyString => []
  | String c s' => String c EmptyString :: str_chars s'
  end.

Definition str_of_Z (n : Z) : string := NilZero.string_of_int (Z.to_int n).

Fixpoint dict_lookup (k : string) (d : list (string * json)) : option json :=
  match d with
  | [] => None
  | (k', v) :: d' => if String.eqb k k' then Some v else dict_lookup k d'
  end.

Section Builtins.
Context `{PyRuntime}.

(** [repr(v)] *)
Fixpoint py_repr (v : json) : string :=
  match v with
  | JNull => "None"
  | JBool true => "True"
  | JBool false => "False"
  | JInt n => str_of_Z n
  | JStr s => repr_str s
  | JList l => "[" +:+ String.concat ", " (List.map py_repr l) +:+ "]"
  | JDict d =>
      "{" +:+ String.concat ", "
                (List.map (λ kv, match kv with
                                 | (k, x) => repr_str k +:+ ": " +:+ py_repr x
                                 end) d) +:+ "}"
  end.

(** [str(v)], also what an f-string does with [{v}]. *)
Definition py_str (v : json) : string :=
  match v with
  | JStr s => s
  | _ => py_repr v
  end.
End Builtins.

(** Truth value of an object ([if v], [not v]). *)
Definition py_truthy (v : json) : bool :=
  match v with
  | JNull => false
  | JBool b => b
  | JInt n => negb (n =? 0)
  | JStr s => negb (String.eqb s "")
  | JList l => match l with [] => false | _ => true end
  | JDict d => match d with [] => false | _ => true end
  end.

(** [v == k] for an [int] literal [k]: [bool] is a subclass of [int]. *)
Definition py_eq_int (v : json) (k : Z) : bool :=
  match v with
  | JInt n => n =? k
  | JBool b => Z.b2z b =? k
  | _ => false
  end.

(** [v < k] for an [int] literal [k]. *)
Definition py_lt_int (v : json) (k : Z) : outcome bool :=
  match v with
  | JInt n => Ret (n <? k)
  | JBool b => Ret (Z.b2z b <? k)
  | _ => Raise (TypeError "'<' not supported between these instances")
  end.

(** [key in v] for a [str] key. *)
Definition py_contains (key : string) (v : json) : outcome bool :=
  match v with
  | JDict d => Ret (match dict_lookup key d with Some _ => true | None => false end)
  | JList l =>
      Ret (existsb (λ x, match x with JStr s => String.eqb s key | _ => false end) l)
  | JStr s => Ret (str_contains key s)
  | _ => Raise (TypeError "argument is not iterable")
  end.

(** [v[key]] for a [str] key. *)
Definition py_getitem (v : json) (key : string) : outcome json :=
  match v with
  | JDict d =>
      match dict_lookup key d with
      | Some x => Ret x
      | None => Raise (KeyError key)
      end
  | JList _ => Raise (TypeError "list indices must be integers or slices, not str")
  | JStr _ => Raise (TypeError "string indices must be integers, not 'str'")
  | _ => Raise (TypeError "object is not subscriptable")
  end.

(** Only a [dict] has the method [get]. *)
Definition as_dict (v : json) : outcome (list (string * json)) :=
  match v with
  | JDict d => Ret d
  | _ => Raise (AttributeError "object has no attribute 'get'")
  end.

(** [v.get(key, dflt)] *)
Definition py_get (v : json) (key : string) (dflt : json) : outcome json :=
  match as_dict v with
  | Ret d => Ret (default dflt (dict_lookup key d))
  | Raise e => Raise e
  end.

(** [v[:n]] *)
Definition py_slice_to (n : nat) (v : json) : outcome json :=
  match v with
  | JList l => Ret (JList (take n l))
  | JStr s => Ret (JStr (String.substring 0 n s))
  | JDict _ => Raise (TypeError "unhashable type: 'slice'")  (* a KeyError from 3.12 on *)
  | _ => Raise (TypeError "object is not subscriptable")
  end.

(** The items a [for] loop, [map] or [join] draws from [v]. *)
Definition py_iter (v : json) : outcome (list json) :=
  match v with
  | JList l => Ret l
  | JStr s => Ret (JStr <$> str_chars s)
  | JDict d => Ret ((λ kv, JStr kv.1) <$> d)
  | _ => Raise (TypeError "object is not iterable")
  end.

(** [os.path.join(a, b)] on a POSIX system. *)
Definition str_ends_with (c : ascii) (s : string) : bool :=
  match String.get (String.length s - 1) s with
  | Some c' => Ascii.eqb c c'
  | None => false
  end.

Definition os_path_join (a b : string) : string :=
  if String.prefix "/" b then b
  else if String.eqb a "" || str_ends_with "/" a then a +:+ b
  else a +:+ "/" +:+ b.

(** Pure evaluation that may raise. *)
#[global] Instance outcome_ret : MRet outcome := λ A a, Ret a.
#[global] Instance outcome_bind : MBind outcome := λ A B f m,
  match m with
  | Ret a => f a
  | Raise e => Raise e
  end.

(** ** The outside world *)

(** What a run can observe or change. *)
Record world : Type := World {
  stdout : list string;        (* arguments of [print], oldest first *)
  net_log : list string;       (* URLs requested, oldest first *)
  dirs : gset string;          (* directories created *)
  files : gmap string string;  (* contents of the files written *)
  fs_clock : nat;              (* file-system operations attempted so far *)
}.

(** How the outside world answers during one run. *)
Record env : Type := Env {
  (* [os.getenv('ABUSEIPDB_API_KEY')], once [load_dotenv()] has run *)
  getenv_api_key : option string;
  (* [requests.get], [raise_for_status] and [.json()] on api.ipify.org *)
  ipify : outcome json;
  (* the same three calls on the AbuseIPDB check endpoint, for an address
     and a key *)
  abuseipdb : json → string → outcome json;
  (* [datetime.now().strftime('%Y-%m-%d %H:%M:%S')] *)
  clock_now : string;
  (* whether the n-th file-system operation of the run raises *)
  fs_fault : nat → option exn;
}.

Definition Py (A : Type) : Type := env → world → outcome A * world.

#[global] Instance Py_ret : MRet Py := λ A a _ w, (Ret a, w).
#[global] Instance Py_bind : MBind Py := λ A B f m E w,
  match m E w with
  | (Ret a, w') => f a E w'
  | (Raise e, w') => (Raise e, w')
  end.

Definition lift {A} (o : outcome A) : Py A := λ _ w, (o, w).
Definition raise {A} (e : exn) : Py A := lift (Raise e).

(** [try: body  except <catches> as e: handler e] *)
Definition try_except {A} (body : Py A) (catches : exn → bool)
    (handler : exn → Py A) : Py A := λ E w,
  match body E w with
  | (Raise e, w') => if catches e then handler e E w' else (Raise e, w')
  | r => r
  end.

Fixpoint for_each {A} (l : list A) (body : A → Py unit) : Py unit :=
  match l with
  | [] => mret ()
  | x :: l' => body x ;; for_each l' body
  end.

Definition print (s : string) : Py unit := λ _ w,
  (Ret (), World (stdout w ++ [s]) (net_log w) (dirs w) (files w) (fs_clock w)).

Definition sys_exit {A} (code : Z) : Py A := raise (SystemExit code).

Definition os_getenv_api_key : Py (option string) := λ E w,
  (Ret (getenv_api_key E), w).

Definition datetime_now : Py string := λ E w, (Ret (clock_now E), w).

(** One HTTP round trip: the request is logged, the answer is the
    environment's. *)
Definition http_get (url : string) (answer : env → outcome json) : Py json :=
  λ E w,
  (answer E, World (stdout w) (net_log w ++ [url]) (dirs w) (files w) (fs_clock w)).

(** One file-system operation: it raises when the environment says so and
    has its effect otherwise. *)
Definition fs_op (effect : world → world) : Py unit := λ E w,
  let w' := World (stdout w) (net_log w) (dirs w) (files w) (S (fs_clock w)) in
  match fs_fault E (fs_clock w) with
  | Some e => (Raise e, w')
  | None => (Ret (), effect w')
  end.

(** [Path(folder).mkdir(parents=True, exist_ok=True)] *)
Definition mkdir (folder : string) : Py unit :=
  fs_op (λ w, World (stdout w) (net_log w) ({[folder]} ∪ dirs w) (files w)
                    (fs_clock w)).

(** [open(path, 'w')] creates or truncates. *)
Definition open_w (path : string) : Py unit :=
  fs_op (λ w, World (stdout w) (net_log w) (dirs w) (<[path := ""]> (files w))
                    (fs_clock w)).

(** [f.write(s)] on the file opened at [path]. *)
Definition f_write (path : string) (s : string) : Py unit :=
  fs_op (λ w, World (stdout w) (net_log w) (dirs w)
                    (<[path := default "" (files w !! path) +:+ s]> (files w))
                    (fs_clock w)).

(** ** The script *)

Module Colors.
Definition ESC : string := String "027"%char EmptyString.
Definition GREEN : string := ESC +:+ "[92m".
Definition YELLOW : string := ESC +:+ "[93m".
Definition RED : string := ESC +:+ "[91m".
Definition BLUE : string := ESC +:+ "[94m".
Definition BOLD : string := ESC +:+ "[1m".
Definition END : string := ESC +:+ "[0m".
End Colors.

Definition ipify_url : string := "https://api.ipify.org?format=json".
Definition abuseipdb_url : string := "https://api.abuseipdb.com/api/v2/check".

(** The tier chosen on lines 88 to 96 for the value found under
    [abuseConfidenceScore]. *)
Definition risk_status (score : json) : outcome string :=
  if py_eq_int score 0 then Ret "CLEAN"
  else
    low ← py_lt_int score 25;
    if low : bool then Ret "LOW RISK"
    else
      moderate ← py_lt_int score 75;
      if moderate : bool then Ret "MODERATE RISK" else Ret "HIGH RISK".

Section Script.
Context `{PyRuntime}.

(** [get_current_ip()]; Python's [None] is [JNull]. *)
Definition get_current_ip : Py json :=
  try_except
    (response ← http_get ipify_url ipify;
     lift (py_getitem response "ip"))
    is_RequestException
    (λ e,
       print (Colors.RED +:+ "Error getting IP address: " +:+ exn_str e
              +:+ Colors.END);;
       mret JNull).

(** [check_ip_reputation(ip_address, api_key)] *)
Definition check_ip_reputation (ip_address : json) (api_key : string)
    : Py json :=
  try_except
    (http_get abuseipdb_url (λ E, abuseipdb E ip_address api_key))
    is_RequestException
    (λ e,
       print (Colors.RED +:+ "Error checking IP reputation: " +:+ exn_str e
              +:+ Colors.END);;
       mret JNull).

(** The line built on lines 115 and 116 for one element of the loop. *)
Definition entry_line (report : json) : outcome string :=
  cats ← py_get report "categories" (JList []);
  items ← py_iter cats;
  let categories := String.concat ", " (py_str <$> items) in
  reported ← py_get report "reportedAt" (JStr "N/A");
  Ret ("  - " +:+ py_str reported +:+ ": " +:+ categories +:+ nl).

(** One turn of the loop on lines 114 to 116. *)
Definition write_report_entry (filepath : string) (report : json) : Py unit :=
  line ← lift (entry_line report);
  f_write filepath line.

(** The block under [with open(filepath, 'w') as f].  The result is
    [Some b] when a [return b] left the block and [None] when control
    fell through its end. *)
Definition report_block (filepath : string) (ip_address data : json)
    : Py (option bool) :=
  has_data ← (if negb (py_truthy data) then mret false
              else lift (py_contains "data" data));
  if negb has_data then
    f_write filepath ("No data received from API" +:+ nl);;
    mret (Some false)
  else
    info ← lift (py_getitem data "data");
    f_write filepath (str_repeat "=" 60 +:+ nl);;
    f_write filepath ("IP REPUTATION REPORT" +:+ nl);;
    f_write filepath (str_repeat "=" 60 +:+ nl +:+ nl);;
    f_write filepath ("IP Address: " +:+ py_str ip_address +:+ nl);;
    now ← datetime_now;
    f_write filepath ("Check Date: " +:+ now +:+ nl +:+ nl);;
    score ← lift (py_get info "abuseConfidenceScore" (JInt 0));
    status ← lift (risk_status score);
    f_write filepath ("Reputation Status: " +:+ status +:+ nl);;
    f_write filepath ("Abuse Confidence Score: " +:+ py_str score +:+ "%"
                      +:+ nl +:+ nl);;
    countryName ← lift (py_get info "countryName" (JStr "Unknown"));
    countryCode ← lift (py_get info "countryCode" (JStr "N/A"));
    f_write filepath ("Country: " +:+ py_str countryName +:+ " ("
                      +:+ py_str countryCode +:+ ")" +:+ nl);;
    isp ← lift (py_get info "isp" (JStr "Unknown"));
    f_write filepath ("ISP: " +:+ py_str isp +:+ nl);;
    domain ← lift (py_get info "domain" (JStr "N/A"));
    f_write filepath ("Domain: " +:+ py_str domain +:+ nl);;
    usageType ← lift (py_get info "usageType" (JStr "Unknown"));
    f_write filepath ("Usage Type: " +:+ py_str usageType +:+ nl);;
    totalReports ← lift (py_get info "totalReports" (JInt 0));
    f_write filepath ("Total Reports: " +:+ py_str totalReports +:+ nl);;
    numDistinctUsers ← lift (py_get info "numDistinctUsers" (JInt 0));
    f_write filepath ("Distinct Users Reported: " +:+ py_str numDistinctUsers
                      +:+ nl);;
    lastReportedAt ← lift (py_get info "lastReportedAt" (JStr "Never"));
    f_write filepath ("Last Reported: " +:+ py_str lastReportedAt +:+ nl);;
    isWhitelisted ← lift (py_get info "isWhitelisted" JNull);
    f_write filepath ("Whitelisted: "
                      +:+ (if py_truthy isWhitelisted then "Yes" else "No")
                      +:+ nl);;
    reports ← lift (py_get info "reports" JNull);
    (if py_truthy reports then
       f_write filepath (nl +:+ "Recent Reports:" +:+ nl);;
       all_reports ← lift (py_getitem info "reports");
       first_five ← lift (py_slice_to 5 all_reports);
       entries ← lift (py_iter first_five);
       for_each entries (write_report_entry filepath)
     else mret ());;
    f_write filepath (nl +:+ str_repeat "=" 60 +:+ nl);;
    mret None.

(** [display_results(ip_address, data)]: kept in the source, never called,
    and its body is [pass]. *)
Definition display_results (ip_address data : json) : Py () := mret ().

(** [save_results_to_file(ip_address, data, output_folder, filename)] *)
Definition save_results_to_file (ip_address data : json)
    (output_folder filename : string) : Py bool :=
  try_except
    (mkdir output_folder;;
     let filepath := os_path_join output_folder filename in
     open_w filepath;;
     returned ← report_block filepath ip_address data;
     match returned with
     | Some b => mret b
     | None =>
         print (Colors.GREEN +:+ "Results saved to " +:+ filepath
                +:+ Colors.END);;
         mret true
     end)
    is_Exception
    (λ e,
       print (Colors.RED +:+ "Error saving file: " +:+ exn_str e
              +:+ Colors.END);;
       mret false).

Definition OUTPUT_FOLDER : string := "./reports".
Definition OUTPUT_FILENAME : string := "ip-rep-report.txt".

(** [main()].  [load_dotenv()] only feeds the environment variables: its
    effect is in what [os_getenv_api_key] reads. *)
Definition main : Py unit :=
  print (Colors.BOLD +:+ "IP Reputation Checker" +:+ Colors.END);;
  print ("Powered by AbuseIPDB" +:+ nl);;
  api_key ← os_getenv_api_key;
  match api_key with
  | None | Some "" =>
      print (Colors.RED +:+ "Error: ABUSEIPDB_API_KEY not found in .env file"
             +:+ Colors.END);;
      print (Colors.YELLOW
             +:+ "Please create a .env file in the same directory with:"
             +:+ Colors.END);;
      print "  ABUSEIPDB_API_KEY=your_api_key_here";;
      sys_exit 1
  | Some api_key =>
      print "Getting your current IP address...";;
      ip_address ← get_current_ip;
      if negb (py_truthy ip_address) then sys_exit 1
      else
        print ("Your IP: " +:+ py_str ip_address +:+ nl);;
        print "Checking IP reputation against threat database...";;
        reputation_data ← check_ip_reputation ip_address api_key;
        if py_truthy reputation_data then
          save_results_to_file ip_address reputation_data
                               OUTPUT_FOLDER OUTPUT_FILENAME;;
          mret ()
        else
          print (Colors.RED +:+ "Failed to retrieve reputation data"
                 +:+ Colors.END);;
          sys_exit 1
  end.

(** The [if __name__ == "__main__"] block. *)
Definition dunder_main : Py unit :=
  try_except main
    (λ e, match e with KeyboardInterrupt => true | _ => false end)
    (λ _,
       print (nl +:+ Colors.YELLOW +:+ "Operation cancelled by user"
              +:+ Colors.END);;
       sys_exit 0).

(** The exit status the interpreter gives the process: 0 when the module
    ran to its end, the code of an uncaught [SystemExit], 1 after the
    traceback of any other uncaught exception. *)
Definition exit_status (o : outcome ()) : Z :=
  match o with
  | Ret _ => 0
  | Raise (SystemExit code) => code
  | Raise _ => 1
  end.

Definition run_script (E : env) (w : world) : Z * world :=
  let (o, w') := dunder_main E w in (exit_status o, w').
End Script.

Definition initial_world : world := World [] [] ∅ ∅ 0.

(** ** What the report consists of *)

(** The content of the [with] block, apart from the file system: the strings
    handed to [f.write], in order, and how the block ends. *)
Definition plan (A : Type) : Type := (list string * outcome A)%type.

#[global] Instance plan_ret : MRet plan := λ A a, ([], Ret a).
#[global] Instance plan_bind : MBind plan := λ A B f m,
  match m with
  | (chunks, Ret a) => let (chunks', o) := f a in (chunks ++ chunks', o)
  | (chunks, Raise e) => (chunks, Raise e)
  end.

Definition tell (chunks : list string) : plan () := (chunks, Ret ()).
Definition plan_lift {A} (o : outcome A) : plan A := ([], o).

Definition concat_chunks (chunks : list string) : string :=
  foldr String.append "" chunks.

(** [info.get(key, dflt)] on a dict. *)
Definition field (d : list (string * json)) (key : string) (dflt : json)
    : json :=
  default dflt (dict_lookup key d).

Section ReportText.
Context `{PyRuntime}.

(** Line 75. *)
Definition no_data_text : string := "No data received from API" +:+ nl.

(** Lines 80 to 85. *)
Definition report_banner (ip_address : json) (now : string) : list string :=
  [ str_repeat "=" 60 +:+ nl;
    "IP REPUTATION REPORT" +:+ nl;
    str_repeat "=" 60 +:+ nl +:+ nl;
    "IP Address: " +:+ py_str ip_address +:+ nl;
    "Check Date: " +:+ now +:+ nl +:+ nl ].

(** Lines 98 to 109, for the dict [d] found under [data] and the tier
    [status] chosen for its score. *)
Definition report_fields (d : list (string * json)) (status : string)
    : list string :=
  [ "Reputation Status: " +:+ status +:+ nl;
    "Abuse Confidence Score: "
      +:+ py_str (field d "abuseConfidenceScore" (JInt 0)) +:+ "%"
      +:+ nl +:+ nl;
    "Country: " +:+ py_str (field d "countryName" (JStr "Unknown")) +:+ " ("
      +:+ py_str (field d "countryCode" (JStr "N/A")) +:+ ")" +:+ nl;
    "ISP: " +:+ py_str (field d "isp" (JStr "Unknown")) +:+ nl;
    "Domain: " +:+ py_str (field d "domain" (JStr "N/A")) +:+ nl;
    "Usage Type: " +:+ py_str (field d "usageType" (JStr "Unknown")) +:+ nl;
    "Total Reports: " +:+ py_str (field d "totalReports" (JInt 0)) +:+ nl;
    "Distinct Users Reported: "
      +:+ py_str (field d "numDistinctUsers" (JInt 0)) +:+ nl;
    "Last Reported: " +:+ py_str (field d "lastReportedAt" (JStr "Never"))
      +:+ nl;
    "Whitelisted: "
      +:+ (if py_truthy (field d "isWhitelisted" JNull) then "Yes" else "No")
      +:+ nl ].

(** The loop on lines 114 to 116: one line per entry, up to the first
    entry on which building the line raises. *)
Fixpoint entries_plan (entries : list json) : plan () :=
  match entries with
  | [] => mret ()
  | report :: entries' =>
      line ← plan_lift (entry_line report);
      tell [line];;
      entries_plan entries'
  end.

(** Lines 112 to 116. *)
Definition recent_plan (d : list (string * json)) : plan () :=
  let reports := field d "reports" JNull in
  if py_truthy reports then
    tell [nl +:+ "Recent Reports:" +:+ nl];;
    first_five ← plan_lift (py_slice_to 5 reports);
    entries ← plan_lift (py_iter first_five);
    entries_plan entries
  else mret ().

(** Line 118. *)
Definition report_foot : string := nl +:+ str_repeat "=" 60 +:+ nl.

(** The whole block, lines 74 to 118, for the time [now] the clock shows. *)
Definition render (ip_address data : json) (now : string)
    : plan (option bool) :=
  has_data ← plan_lift (if negb (py_truthy data) then Ret false
                        else py_contains "data" data);
  if negb has_data then
    tell [no_data_text];;
    mret (Some false)
  else
    info ← plan_lift (py_getitem data "data");
    tell (report_banner ip_address now);;
    d ← plan_lift (as_dict info);
    status ← plan_lift (risk_status (field d "abuseConfidenceScore" (JInt 0)));
    tell (report_fields d status);;
    recent_plan d;;
    tell [report_foot];;
    mret None.

(** A complete report: banner, fields, the lines on recent reports, foot. *)
Definition report_text (ip_address : json) (now : string)
    (d : list (string * json)) (status : string) (recent : list string)
    : string :=
  concat_chunks (report_banner ip_address now ++ report_fields d status
                 ++ recent ++ [report_foot]).
End ReportText.

(** [write_all path chunks k]: hand the chunks to [f.write] one after the
    other, then go on with [k]. *)
Fixpoint write_all {A} (path : string) (chunks : list string) (k : Py A)
    : Py A :=
  match chunks with
  | [] => k
  | s :: chunks' => f_write path s ;; write_all path chunks' k
  end.

(** Carrying out a plan on the file opened at [path]. *)
Definition emit {A} (path : string) (p : plan A) : Py A :=
  write_all path p.1 (lift p.2).

(** The text of the file at [path], empty when there is none. *)
Definition file_text (path : string) (w : world) : string :=
  default "" (files w !! path).

(** No file-system operation of the run raises. *)
Definition no_faults (E : env) : Prop := ∀ n, fs_fault E n = None.

Definition with_stdout (s : string) (w : world) : world :=
  World (stdout w ++ [s]) (net_log w) (dirs w) (files w) (fs_clock w).

Definition logged (url : string) (w : world) : world :=
  World (stdout w) (net_log w ++ [url]) (dirs w) (files w) (fs_clock w).

(** The world once [folder] was created and [text] was put at [path], at the
    cost of [ops] file-system operations. *)
Definition saved_world (folder path text : string) (ops : nat) (w : world)
    : world :=
  World (stdout w) (net_log w) ({[folder]} ∪ dirs w)
        (<[path := text]> (files w)) (ops + fs_clock w).

(** Lines 120 to 124: how [save_results_to_file] ends once the block was left
    with outcome [o]. *)
Definition save_end (filepath : string) (o : outcome (option bool))
    (w : world) : outcome bool * world :=
  match o with
  | Ret (Some b) => (Ret b, w)
  | Ret None =>
      (Ret true,
       with_stdout (Colors.GREEN +:+ "Results saved to " +:+ filepath
                    +:+ Colors.END) w)
  | Raise e =>
      if is_Exception e then
        (Ret false,
         with_stdout (Colors.RED +:+ "Error saving file: " +:+ exn_str e
                      +:+ Colors.END) w)
      else (Raise e, w)
  end.

(** A computation whose file-system operations are exactly those counted by
    the clock, and which raises the fault of the one that failed. *)
Definition traced {A} (m : Py A) : Prop :=
  ∀ E w,
    (fs_clock w ≤ fs_clock (m E w).2)%nat ∧
    ∀ n e, (fs_clock w ≤ n < fs_clock (m E w).2)%nat →
           fs_fault E n = Some e → (m E w).1 = Raise e.

(** The parts of the world a call that writes the file at [path] leaves
    alone: the network log and every other file. *)
Definition untouched (path : string) (w w' : world) : Prop :=
  net_log w' = net_log w ∧ ∀ q, q ≠ path → files w' !! q = files w !! q.

(** A computation that keeps the relation [R] between the world it starts in
    and the world it ends in, however the outside world answers. *)
Definition keeps {A} (R : world → world → Prop) (m : Py A) : Prop :=
  ∀ E w, R w (m E w).2.

Section Persist.
Context `{PyRuntime}.

(** The body of the [try] in [save_results_to_file] with the formatting
    taken out: the text comes from [render], the body only carries it to
    the disk. *)
Definition persist_body (ip_address data : json)
    (output_folder filename : string) : Py bool :=
  mkdir output_folder;;
  let filepath := os_path_join output_folder filename in
  open_w filepath;;
  now ← datetime_now;
  returned ← emit filepath (render ip_address data now);
  match returned with
  | Some b => mret b
  | None =>
      print (Colors.GREEN +:+ "Results saved to " +:+ filepath
             +:+ Colors.END);;
      mret true
  end.

Definition persist_render (ip_address data : json)
    (output_folder filename : string) : Py bool :=
  try_except
    (persist_body ip_address data output_folder filename)
    is_Exception
    (λ e,
       print (Colors.RED +:+ "Error saving file: " +:+ exn_str e
              +:+ Colors.END);;
       mret false).
End Persist.

(** The six fields that are printed alone on their line: key, default and
    label. *)
Definition plain_fields : list (string * json * string) :=
  [ ("isp", JStr "Unknown", "ISP: ");
    ("domain", JStr "N/A", "Domain: ");
    ("usageType", JStr "Unknown", "Usage Type: ");
    ("totalReports", JInt 0, "Total Reports: ");
    ("numDistinctUsers", JInt 0, "Distinct Users Reported: ");
    ("lastReportedAt", JStr "Never", "Last Reported: ") ].

Fixpoint outcome_mapM {A B} (f : A → outcome B) (l : list A)
    : outcome (list B) :=
  match l with
  | [] => Ret []
  | x :: l' =>
      match f x, outcome_mapM f l' with
      | Ret y, Ret ys => Ret (y :: ys)
      | Raise e, _ | _, Raise e => Raise e
      end
  end.

Definition report_path : string := os_path_join OUTPUT_FOLDER OUTPUT_FILENAME.

Section Progress.
Context `{PyRuntime}.

(** The world in which [main] calls [check_ip_reputation], for the address
    [ip_address] the resolver gave. *)
Definition before_lookup (ip_address : json) (w : world) : world :=
  with_stdout "Checking IP reputation against threat database..."
    (with_stdout ("Your IP: " +:+ py_str ip_address +:+ nl)
       (logged ipify_url
          (with_stdout "Getting your current IP address..."
             (with_stdout ("Powered by AbuseIPDB" +:+ nl)
                (with_stdout (Colors.BOLD +:+ "IP Reputation Checker"
                              +:+ Colors.END) w))))).

(** The world in which [main] calls [save_results_to_file]. *)
Definition before_save (ip_address : json) (w : world) : world :=
  logged abuseipdb_url (before_lookup ip_address w).
End Progress.

(** ** Sample inputs *)

(** A stand-in for [repr] on [str], right on strings of printable ASCII
    without quotes or backslashes. *)
Definition quoting_runtime : PyRuntime := {| repr_str := λ s, "'" +:+ s +:+ "'" |}.

Definition sample_ip : json := JStr "1.2.3.4".

Definition sample_entry (stamp : string) (codes : list Z) : json :=
  JDict [("reportedAt", JStr stamp); ("categories", JList (JInt <$> codes))].

Definition seven_reports : list json :=
  [ sample_entry "2024-05-07" [18; 22];
    sample_entry "2024-05-06" [14];
    sample_entry "2024-05-05" [];
    sample_entry "2024-05-04" [5; 15; 21];
    sample_entry "2024-05-03" [22];
    sample_entry "2024-05-02" [18];
    sample_entry "2024-05-01" [4] ].

Definition sample_record : list (string * json) :=
  [ ("abuseConfidenceScore", JInt 42);
    ("countryName", JStr "Testland");
    ("totalReports", JInt 3);
    ("reports", JList seven_reports) ].

Definition sample_payload : list (string * json) :=
  [("data", JDict sample_record)].

(** A record with neither provider, domain nor reports. *)
Definition sparse_record : list (string * json) :=
  [ ("abuseConfidenceScore", JInt 42);
    ("countryName", JStr "Testland");
    ("totalReports", JInt 3) ].

(** The lines the first five of [seven_reports] give. *)
Definition first_five_lines : list string :=
  [ "  - 2024-05-07: 18, 22" +:+ nl;
    "  - 2024-05-06: 14" +:+ nl;
    "  - 2024-05-05: " +:+ nl;
    "  - 2024-05-04: 5, 15, 21" +:+ nl;
    "  - 2024-05-03: 22" +:+ nl ].

(** A world with a history: output, a request, a folder, a stale file. *)
Definition busy_world : world :=
  World ["earlier output"] ["https://example.org"] {["old"]}
        {["tmp/b.txt" := "stale text"]} 7.

(** A run in which everything works. *)
Definition good_env : env :=
  Env (Some "secret") (Ret (JDict [("ip", sample_ip)]))
      (λ _ _, Ret (JDict sample_payload)) "2024-05-08 12:00:00" (λ _, None).

(** The lookup succeeds with an empty JSON object. *)
Definition empty_payload_env : env :=
  Env (Some "secret") (Ret (JDict [("ip", sample_ip)]))
      (λ _ _, Ret (JDict [])) "2024-05-08 12:00:00" (λ _, None).

(** The lookup succeeds with an object that has no [data] key. *)
Definition no_data_env : env :=
  Env (Some "secret") (Ret (JDict [("ip", sample_ip)]))
      (λ _ _, Ret (JDict [("errors", JList [])])) "2024-05-08 12:00:00"
      (λ _, None).

(** The lookup fails. *)
Definition lookup_down_env : env :=
  Env (Some "secret") (Ret (JDict [("ip", sample_ip)]))
      (λ _ _, Raise (RequestException "429 Client Error: Too Many Requests"))
      "2024-05-08 12:00:00" (λ _, None).

(** Everything works until the report folder cannot be created. *)
Definition read_only_env : env :=
  Env (Some "secret") (Ret (JDict [("ip", sample_ip)]))
      (λ _ _, Ret (JDict sample_payload)) "2024-05-08 12:00:00"
      (λ n, match n with
            | O => Some (OSError "[Errno 13] Permission denied: 'reports'")
            | _ => None
            end).

(** No API key is configured. *)
Definition no_key_env : env :=
  Env None (Ret (JDict [("ip", sample_ip)]))
      (λ _ _, Ret (JDict sample_payload)) "2024-05-08 12:00:00" (λ _, None).

Section Interruptions.
Context `{PyRuntime}.

(** The world in which [main] calls [get_current_ip]. *)
Definition before_resolver (w : world) : world :=
  with_stdout "Getting your current IP address..."
    (with_stdout ("Powered by AbuseIPDB" +:+ nl)
       (with_stdout (Colors.BOLD +:+ "IP Reputation Checker" +:+ Colors.END) w)).

(** The world once the handler of [KeyboardInterrupt] has printed. *)
Definition cancelled (w : world) : world :=
  with_stdout (nl +:+ Colors.YELLOW +:+ "Operation cancelled by user"
               +:+ Colors.END) w.
End Interruptions.

(** The resolver is down. *)
Definition resolver_down_env : env :=
  Env (Some "secret")
      (Raise (RequestException "HTTPSConnectionPool: Max retries exceeded"))
      (λ _ _, Ret (JDict sample_payload)) "2024-05-08 12:00:00" (λ _, None).

(** The resolver answers with an object that has no [ip]. *)
Definition odd_resolver_env : env :=
  Env (Some "secret") (Ret (JDict [("origin", sample_ip)]))
      (λ _ _, Ret (JDict sample_payload)) "2024-05-08 12:00:00" (λ _, None).

(** Ctrl-C while the resolver is awaited. *)
Definition interrupted_env : env :=
  Env (Some "secret") (Raise KeyboardInterrupt)
      (λ _ _, Ret (JDict sample_payload)) "2024-05-08 12:00:00" (λ _, None).

(** The disk is full at the third write, the fifth file-system operation. *)
Definition disk_full_env : env :=
  Env (Some "secret") (Ret (JDict [("ip", sample_ip)]))
      (λ _ _, Ret (JDict sample_payload)) "2024-05-08 12:00:00"
      (λ n, match n with
            | 4%nat => Some (OSError "[Errno 28] No space left on device")
            | _ => None
            end).



(** * Properties *)

(** ** Running computations *)

Lemma bind_run {A B} (m : Py A) (f : A → Py B) E w :
  (m ≫= f) E w =
  match m E w with
  | (Ret a, w') => f a E w'
  | (Raise e, w') => (Raise e, w')
  end.
Proof. reflexivity. Qed.

Lemma bind_cong {A B} (m : Py A) (f g : A → Py B) E w :
  (∀ a w', f a E w' = g a E w') → (m ≫= f) E w = (m ≫= g) E w.
Proof.
  intros Hfg. rewrite !bind_run. destruct (m E w) as [[a|e] w']; auto.
Qed.

Lemma bind_assoc {A B C} (m : Py A) (f : A → Py B) (g : B → Py C) E w :
  ((m ≫= f) ≫= g) E w = (m ≫= λ a, f a ≫= g) E w.
Proof. rewrite !bind_run. by destruct (m E w) as [[a|e] w']. Qed.

Lemma lift_bind {A B} (a : A) (f : A → Py B) E w :
  (lift (Ret a) ≫= f) E w = f a E w.
Proof. reflexivity. Qed.

Lemma raise_bind {A B} e (f : A → Py B) E w :
  (lift (Raise e) ≫= f) E w = (Raise e, w).
Proof. reflexivity. Qed.

Lemma ret_bind {A B} (a : A) (f : A → Py B) E w : (mret a ≫= f) E w = f a E w.
Proof. reflexivity. Qed.

Lemma now_bind {B} (f : string → Py B) E w :
  (datetime_now ≫= f) E w = f (clock_now E) E w.
Proof. reflexivity. Qed.

Lemma write_all_app {A} path (l1 l2 : list string) (k : Py A) :
  write_all path (l1 ++ l2) k = write_all path l1 (write_all path l2 k).
Proof. induction l1 as [|s l1 IH]; simpl; [done|]. by rewrite IH. Qed.

(** One step of a block against the plan it is compared with: a pure step
    is evaluated, a write is matched with the same write on the other side. *)
Ltac block_step :=
  first [ rewrite lift_bind | rewrite raise_bind | rewrite ret_bind
        | rewrite now_bind | rewrite bind_assoc
        | match goal with
          | Ho : ?o = Ret _ |- context [lift ?o] => rewrite Ho
          | Ho : ?o = Raise _ |- context [lift ?o] => rewrite Ho
          end
        | apply bind_cong; intros [] ? ];
  cbn [negb py_get as_dict]; cbv beta iota.

Ltac plan_simpl :=
  cbn [mbind plan_bind mret plan_ret tell plan_lift fst snd app write_all].

(** ** The block writes what [render] plans *)

Section Refinement.
Context `{PyRuntime}.

Lemma entries_loop_plan {B} path entries (k : Py B) E w :
  (for_each entries (write_report_entry path) ≫= λ _, k) E w
  = write_all path (entries_plan entries).1
      (match (entries_plan entries).2 with
       | Ret _ => k
       | Raise e => raise e
       end) E w.
Proof.
  revert w. induction entries as [|r entries IH]; intros w; [done|].
  cbn [for_each entries_plan]. unfold write_report_entry.
  destruct (entry_line r) as [line|e]; [|done].
  destruct (entries_plan entries) as [chunks o].
  plan_simpl. repeat block_step. apply IH.
Qed.

Lemma recent_block_plan {B} path d (k : Py B) E w :
  ((reports ← lift (py_get (JDict d) "reports" JNull);
    if py_truthy reports then
      f_write path (nl +:+ "Recent Reports:" +:+ nl);;
      all_reports ← lift (py_getitem (JDict d) "reports");
      first_five ← lift (py_slice_to 5 all_reports);
      entries ← lift (py_iter first_five);
      for_each entries (write_report_entry path)
    else mret ()) ≫= λ _, k) E w
  = write_all path (recent_plan d).1
      (match (recent_plan d).2 with
       | Ret _ => k
       | Raise e => raise e
       end) E w.
Proof.
  unfold recent_plan, field. cbn [py_get as_dict py_getitem].
  repeat block_step.
  destruct (dict_lookup "reports" d) as [reports|];
    cbn [default from_option id py_truthy]; [|reflexivity].
  destruct (py_truthy reports); [|reflexivity].
  plan_simpl.
  destruct (py_slice_to 5 reports) as [five|e] eqn:Hs; plan_simpl;
    [|repeat block_step; reflexivity].
  destruct (py_iter five) as [entries|e] eqn:Hi; plan_simpl;
    [|repeat block_step; reflexivity].
  pose proof (entries_loop_plan path entries k E) as Hloop.
  destruct (entries_plan entries) as [chunks o]. plan_simpl.
  repeat block_step. apply Hloop.
Qed.

(** Whatever the payload and whatever the file system does, the block
    under [with] behaves as the emission of the plan [render] computes. *)
Lemma report_block_render path ip data E w :
  report_block path ip data E w
  = emit path (render ip data (clock_now E)) E w.
Proof.
  unfold report_block, render, emit.
  destruct (py_truthy data); cbn [negb]; [|reflexivity].
  plan_simpl.
  destruct (py_contains "data" data) as [[|]|e]; [|reflexivity..].
  cbn [negb]. plan_simpl.
  destruct (py_getitem data "data") as [info|e]; [|reflexivity].
  plan_simpl.
  destruct (as_dict info) as [d|e] eqn:Hd; plan_simpl.
  { destruct info; try discriminate Hd. injection Hd as ->.
    cbn [py_get as_dict].
    destruct (risk_status (field d "abuseConfidenceScore" (JInt 0)))
      as [st|e] eqn:Hst; unfold field in Hst; plan_simpl.
    - pose proof (@recent_block_plan (option bool) path d) as Hrec.
      destruct (recent_plan d) as [rc ro]. cbn [fst snd] in Hrec.
      destruct ro as [[]|e]; plan_simpl; rewrite !write_all_app;
        unfold report_banner, report_fields, field; cbn [write_all];
        repeat block_step; apply Hrec.
    - repeat block_step. reflexivity. }
  repeat block_step. unfold py_get. rewrite Hd. repeat block_step.
  reflexivity.
Qed.

Lemma save_results_to_file_persist ip data folder file E w :
  save_results_to_file ip data folder file E w
  = persist_render ip data folder file E w.
Proof.
  unfold save_results_to_file, persist_render, persist_body, try_except.
  match goal with
  | |- match ?a with _ => _ end = match ?b with _ => _ end =>
      replace a with b; [reflexivity|]
  end.
  do 2 (apply bind_cong; intros [] ?). cbv zeta. rewrite now_bind.
  rewrite !bind_run. by rewrite report_block_render.
Qed.
End Refinement.

(** ** Writing without faults *)

Lemma str_app_assoc (a b c : string) : (a +:+ b) +:+ c = a +:+ (b +:+ c).
Proof.
  induction a as [|x a IH]; [reflexivity|].
  change (String x ((a +:+ b) +:+ c) = String x (a +:+ (b +:+ c))).
  by rewrite IH.
Qed.

Lemma str_app_nil_r (a : string) : a +:+ "" = a.
Proof.
  induction a as [|x a IH]; [reflexivity|].
  change (String x (a +:+ "") = String x a). by rewrite IH.
Qed.

Lemma f_write_run path s E w :
  fs_fault E (fs_clock w) = None →
  f_write path s E w
  = (Ret (), World (stdout w) (net_log w) (dirs w)
                   (<[path := file_text path w +:+ s]> (files w))
                   (S (fs_clock w))).
Proof. intros HE. unfold f_write, fs_op. by rewrite HE. Qed.

Lemma write_all_no_faults {A} path chunks (k : Py A) E w c :
  no_faults E → files w !! path = Some c →
  write_all path chunks k E w
  = k E (World (stdout w) (net_log w) (dirs w)
               (<[path := c +:+ concat_chunks chunks]> (files w))
               (length chunks + fs_clock w)).
Proof.
  intros HE. revert w c. induction chunks as [|s chunks IH]; intros w c Hc.
  - simpl. rewrite str_app_nil_r, insert_id by done. by destruct w.
  - cbn [write_all]. rewrite bind_run, f_write_run by apply HE.
    rewrite (IH _ (c +:+ s)); cbn [files stdout net_log dirs fs_clock].
    + unfold file_text. rewrite Hc. cbn [default from_option id]. 
      rewrite insert_insert_eq. simpl concat_chunks. rewrite str_app_assoc.
      do 2 f_equal. simpl. lia.
    + unfold file_text. rewrite Hc. apply lookup_insert_eq.
Qed.

Lemma mkdir_run folder E w :
  fs_fault E (fs_clock w) = None →
  mkdir folder E w
  = (Ret (), World (stdout w) (net_log w) ({[folder]} ∪ dirs w) (files w)
                   (S (fs_clock w))).
Proof. intros HE. unfold mkdir, fs_op. by rewrite HE. Qed.

Lemma open_w_run path E w :
  fs_fault E (fs_clock w) = None →
  open_w path E w
  = (Ret (), World (stdout w) (net_log w) (dirs w) (<[path := ""]> (files w))
                   (S (fs_clock w))).
Proof. intros HE. unfold open_w, fs_op. by rewrite HE. Qed.

Section SaveRuns.
Context `{PyRuntime}.
Lemma save_no_faults ip data folder file E w :
  no_faults E →
  let path := os_path_join folder file in
  let p := render ip data (clock_now E) in
  save_results_to_file ip data folder file E w
  = save_end path p.2
      (saved_world folder path (concat_chunks p.1) (2 + length p.1) w).
Proof.
  intros HE path p. rewrite save_results_to_file_persist.
  unfold persist_render, persist_body, try_except.
  rewrite bind_run, mkdir_run by apply HE.
  rewrite bind_run, open_w_run by apply HE.
  cbv zeta. fold path. rewrite now_bind, bind_run. fold p. unfold emit.
  erewrite write_all_no_faults; [|done|apply lookup_insert_eq].
  cbn [files stdout net_log dirs fs_clock lift].
  rewrite insert_insert_eq. change ("" +:+ ?s) with s.
  replace (length p.1 + S (S (fs_clock w)))%nat
    with (2 + length p.1 + fs_clock w)%nat by lia.
  fold (saved_world folder path (concat_chunks p.1) (2 + length p.1) w).
  unfold save_end.
  by destruct p.2 as [[b|]|e].
Qed.
End SaveRuns.

(** ** File-system faults *)

Lemma traced_bind {A B} (m : Py A) (f : A → Py B) :
  traced m → (∀ a, traced (f a)) → traced (m ≫= f).
Proof.
  intros Hm Hf E w. rewrite bind_run.
  destruct (Hm E w) as [Hle Hfault].
  destruct (m E w) as [[a|e] w1]; cbn [fst snd] in *.
  2:{ split; [done|]. intros n e0 Hn He0. specialize (Hfault n e0 Hn He0).
      by injection Hfault as ->. }
  destruct (Hf a E w1) as [Hle' Hfault'].
  split; [lia|]. intros n e [Hn1 Hn2] Hn.
  destruct (decide (n < fs_clock w1)%nat) as [Hlt|Hge].
  - by specialize (Hfault n e (conj Hn1 Hlt) Hn).
  - apply (Hfault' n e); [lia|done].
Qed.

Lemma traced_fs_op effect :
  (∀ w, fs_clock (effect w) = fs_clock w) → traced (fs_op effect).
Proof.
  intros Heff E w. unfold fs_op.
  destruct (fs_fault E (fs_clock w)) as [e|] eqn:HE; cbn [fst snd fs_clock].
  - split; [lia|]. intros n e' Hn Hn'. assert (n = fs_clock w) as -> by lia.
    congruence.
  - rewrite Heff. cbn [fs_clock]. split; [lia|]. intros n e' Hn Hn'.
    assert (n = fs_clock w) as -> by lia. congruence.
Qed.

Lemma traced_still {A} (m : Py A) :
  (∀ E w, fs_clock (m E w).2 = fs_clock w) → traced m.
Proof. intros Hm E w. rewrite Hm. split; [lia|]. intros n e Hn. lia. Qed.

Lemma traced_write_all {A} path chunks (k : Py A) :
  traced k → traced (write_all path chunks k).
Proof.
  intros Hk. induction chunks as [|s chunks IH]; [done|].
  cbn [write_all]. apply traced_bind; [|done]. by apply traced_fs_op.
Qed.

Section SaveFaults.
Context `{PyRuntime}.

Lemma persist_body_traced ip data folder file :
  traced (persist_body ip data folder file).
Proof.
  apply traced_bind; [by apply traced_fs_op|intros _].
  apply traced_bind; [by apply traced_fs_op|intros _].
  apply traced_bind; [by apply traced_still|intros now].
  apply traced_bind; [apply traced_write_all; by apply traced_still|].
  intros [b|]; by apply traced_still.
Qed.

(** A file-system operation of the call that raises an [Exception] makes
    the call return [False]. *)
Lemma save_fault_false ip data folder file E w n e :
  (fs_clock w ≤ n < fs_clock (save_results_to_file ip data folder file E w).2)%nat →
  fs_fault E n = Some e → is_Exception e = true →
  (save_results_to_file ip data folder file E w).1 = Ret false.
Proof.
  rewrite save_results_to_file_persist. unfold persist_render, try_except.
  destruct (persist_body_traced ip data folder file E w) as [_ Hfault].
  destruct (persist_body ip data folder file E w) as [[b|e'] w1] eqn:Hbody;
    cbn [fst snd] in *.
  - intros Hn Hf _. by specialize (Hfault n e Hn Hf).
  - destruct (is_Exception e') eqn:He'; cbn [fst snd print fs_clock].
    + done.
    + intros Hn Hf He. specialize (Hfault n e Hn Hf). congruence.
Qed.
End SaveFaults.

(** ** What a successful call has done *)

Lemma write_all_ret_inv {A} path chunks (o : outcome A) E w a w' c :
  write_all path chunks (lift o) E w = (Ret a, w') →
  files w !! path = Some c →
  o = Ret a ∧ files w' = <[path := c +:+ concat_chunks chunks]> (files w).
Proof.
  revert w c. induction chunks as [|s chunks IH]; intros w c Hrun Hc.
  - injection Hrun as -> ->. by rewrite str_app_nil_r, insert_id.
  - cbn [write_all] in Hrun. rewrite bind_run in Hrun.
    unfold f_write, fs_op in Hrun.
    destruct (fs_fault E (fs_clock w)); [done|].
    apply (IH _ (c +:+ s)) in Hrun as [-> ->]; cbn [files].
    + split; [done|]. rewrite Hc. cbn [default from_option id].
      by rewrite insert_insert_eq, str_app_assoc.
    + rewrite Hc. apply lookup_insert_eq.
Qed.

Section RenderCases.
Context `{PyRuntime}.

Lemma getitem_data_inv data info :
  py_getitem data "data" = Ret info →
  py_truthy data = true ∧ py_contains "data" data = Ret true.
Proof.
  destruct data as [| | | |l|dd]; try done. cbn.
  destruct dd as [|kv dd]; [done|].
  destruct (dict_lookup "data" (kv :: dd)); [done|done].
Qed.

Lemma render_full ip data now d st recent :
  py_getitem data "data" = Ret (JDict d) →
  risk_status (field d "abuseConfidenceScore" (JInt 0)) = Ret st →
  recent_plan d = (recent, Ret ()) →
  render ip data now
  = (report_banner ip now ++ report_fields d st ++ recent ++ [report_foot],
     Ret None).
Proof.
  intros Hg Hst Hrec. destruct (getitem_data_inv _ _ Hg) as [Ht Hc].
  unfold render. rewrite Ht, Hc, Hg. plan_simpl. cbn [negb as_dict].
  plan_simpl. rewrite Hst. plan_simpl. rewrite Hrec. plan_simpl.
  reflexivity.
Qed.

Lemma render_full_inv ip data now :
  (render ip data now).2 = Ret None →
  ∃ d st recent,
    py_getitem data "data" = Ret (JDict d) ∧
    risk_status (field d "abuseConfidenceScore" (JInt 0)) = Ret st ∧
    recent_plan d = (recent, Ret ()) ∧
    (render ip data now).1
    = report_banner ip now ++ report_fields d st ++ recent ++ [report_foot].
Proof.
  unfold render.
  destruct (py_truthy data); cbn [negb]; plan_simpl; [|done].
  destruct (py_contains "data" data) as [[|]|e]; cbn [negb]; plan_simpl;
    [|done..].
  destruct (py_getitem data "data") as [info|e]; plan_simpl; [|done].
  destruct info as [| | | | |d]; cbn [as_dict]; plan_simpl; try done.
  destruct (risk_status (field d "abuseConfidenceScore" (JInt 0)))
    as [st|e] eqn:Hst; plan_simpl; [|done].
  destruct (recent_plan d) as [recent [[]|e]] eqn:Hrec; plan_simpl; [|done].
  intros _. by exists d, st, recent.
Qed.

Lemma render_returned ip data now b :
  (render ip data now).2 = Ret (Some b) →
  b = false ∧ (render ip data now).1 = [no_data_text].
Proof.
  unfold render.
  destruct (py_truthy data); cbn [negb]; plan_simpl;
    [|intros [= <-]; done].
  destruct (py_contains "data" data) as [[|]|e]; cbn [negb]; plan_simpl;
    [|intros [= <-]; done|done].
  destruct (py_getitem data "data") as [info|e]; plan_simpl; [|done].
  destruct info as [| | | | |d]; cbn [as_dict]; plan_simpl; try done.
  destruct (risk_status (field d "abuseConfidenceScore" (JInt 0)))
    as [st|e]; plan_simpl; [|done].
  destruct (recent_plan d) as [recent [[]|e]]; plan_simpl; done.
Qed.

Lemma save_true_inv ip data folder file E w :
  (save_results_to_file ip data folder file E w).1 = Ret true →
  (render ip data (clock_now E)).2 = Ret None ∧
  files (save_results_to_file ip data folder file E w).2
    !! os_path_join folder file
  = Some (concat_chunks (render ip data (clock_now E)).1).
Proof.
  destruct (save_results_to_file ip data folder file E w) as [r w'] eqn:Hsave.
  cbn [fst snd]. intros ->. revert Hsave.
  rewrite save_results_to_file_persist.
  unfold persist_render, persist_body, try_except.
  rewrite bind_run. unfold mkdir, fs_op.
  destruct (fs_fault E (fs_clock w)) as [e|].
  { by destruct (is_Exception e). }
  rewrite bind_run. unfold open_w, fs_op. cbn [fs_clock].
  destruct (fs_fault E (S (fs_clock w))) as [e|].
  { by destruct (is_Exception e). }
  cbv zeta. rewrite now_bind, bind_run. unfold emit.
  destruct (write_all _ _ _ E _) as [[returned|e] w1] eqn:Hrun.
  2:{ by destruct (is_Exception e). }
  eapply write_all_ret_inv in Hrun as [Ho Hfiles];
    [|cbn [files]; apply lookup_insert_eq].
  cbn [files] in Hfiles. rewrite insert_insert_eq in Hfiles.
  destruct returned as [b|].
  - intros [= -> <-]. by apply render_returned in Ho as [? _].
  - intros [= <-]. split; [done|]. cbn [files]. rewrite Hfiles.
    apply lookup_insert_eq.
Qed.
End RenderCases.

Section SaveOutcomes.
Context `{PyRuntime}.

Lemma render_unusable ip data now :
  py_truthy data = false ∨ py_contains "data" data = Ret false →
  render ip data now = ([no_data_text], Ret (Some false)).
Proof.
  unfold render. intros [Ht|Hc].
  - by rewrite Ht.
  - destruct (py_truthy data); [|done]. cbn [negb]. by rewrite Hc.
Qed.

Lemma absent_unusable data :
  data = JNull ∨ (∃ dd, data = JDict dd ∧ dict_lookup "data" dd = None) →
  py_truthy data = false ∨ py_contains "data" data = Ret false.
Proof.
  intros [->|(dd & -> & Hdd)]; [by left|]. right. cbn. by rewrite Hdd.
Qed.

Lemma save_unusable_payload ip data folder file E w :
  no_faults E →
  py_truthy data = false ∨ py_contains "data" data = Ret false →
  save_results_to_file ip data folder file E w
  = (Ret false,
     saved_world folder (os_path_join folder file) no_data_text 3 w).
Proof.
  intros HE Hdata. rewrite save_no_faults by done. cbv zeta.
  by rewrite render_unusable.
Qed.

Lemma entries_plan_lines entries lines :
  outcome_mapM entry_line entries = Ret lines →
  entries_plan entries = (lines, Ret ()).
Proof.
  revert lines. induction entries as [|r entries IH]; intros lines.
  - by intros [= <-].
  - cbn [outcome_mapM entries_plan].
    destruct (entry_line r) as [line|e]; [|done].
    destruct (outcome_mapM entry_line entries) as [ls|e]; [|done].
    intros [= <-]. plan_simpl. by rewrite (IH ls).
Qed.

Lemma outcome_mapM_lookup {A B} (f : A → outcome B) l ys :
  outcome_mapM f l = Ret ys →
  length ys = length l ∧
  ∀ i x, l !! i = Some x → ∃ y, ys !! i = Some y ∧ f x = Ret y.
Proof.
  revert ys. induction l as [|x l IH]; intros ys.
  - intros [= <-]. split; [done|]. by intros i x.
  - cbn [outcome_mapM]. destruct (f x) as [y|e] eqn:Hx; [|done].
    destruct (outcome_mapM f l) as [ys'|e]; [|done].
    intros [= <-]. destruct (IH ys' eq_refl) as [Hlen Hlook].
    split; [cbn; by rewrite Hlen|].
    intros [|i] x'; cbn; [intros [= <-]; eauto|apply Hlook].
Qed.

Lemma entry_line_inv report line :
  entry_line report = Ret line →
  ∃ e items,
    report = JDict e ∧
    py_iter (field e "categories" (JList [])) = Ret items ∧
    line = "  - " +:+ py_str (field e "reportedAt" (JStr "N/A")) +:+ ": "
           +:+ String.concat ", " (py_str <$> items) +:+ nl.
Proof.
  unfold entry_line, py_get.
  destruct report as [| | | | |e]; cbn [as_dict mbind outcome_bind]; try done.
  fold (field e "categories" (JList [])).
  destruct (py_iter (field e "categories" (JList []))) as [items|?] eqn:Hi;
    [|done].
  intros [= <-]. by exists e, items.
Qed.

Lemma recent_plan_list d rs lines :
  dict_lookup "reports" d = Some (JList rs) → rs ≠ [] →
  outcome_mapM entry_line (take 5 rs) = Ret lines →
  recent_plan d = ((nl +:+ "Recent Reports:" +:+ nl) :: lines, Ret ()).
Proof.
  intros Hd Hrs Hlines. unfold recent_plan, field. rewrite Hd.
  cbn [default from_option id py_truthy py_slice_to py_iter].
  destruct rs as [|r rs]; [done|]. plan_simpl. cbn [py_iter].
  by rewrite (entries_plan_lines _ _ Hlines).
Qed.

Lemma save_full_report ip data folder file E w d st recent :
  no_faults E →
  py_getitem data "data" = Ret (JDict d) →
  risk_status (field d "abuseConfidenceScore" (JInt 0)) = Ret st →
  recent_plan d = (recent, Ret ()) →
  let path := os_path_join folder file in
  save_results_to_file ip data folder file E w
  = (Ret true,
     with_stdout (Colors.GREEN +:+ "Results saved to " +:+ path +:+ Colors.END)
       (saved_world folder path (report_text ip (clock_now E) d st recent)
          (18 + length recent) w)).
Proof.
  intros HE Hd Hst Hrec path. rewrite save_no_faults by done. cbv zeta.
  rewrite (render_full _ _ _ _ _ _ Hd Hst Hrec). cbn [fst snd save_end].
  fold path. unfold report_text. do 3 f_equal.
  rewrite !length_app. cbn [length report_banner report_fields]. lia.
Qed.
End SaveOutcomes.

(** ** What a call leaves alone *)

Lemma untouched_preorder path : PreOrder (untouched path).
Proof.
  split; [done|]. intros w1 w2 w3 [Hn1 Hf1] [Hn2 Hf2]. split; [congruence|].
  intros q Hq. by rewrite Hf2, Hf1.
Qed.

#[local] Existing Instance untouched_preorder.

Lemma keeps_bind {A B} R `{!PreOrder R} (m : Py A) (f : A → Py B) :
  keeps R m → (∀ a, keeps R (f a)) → keeps R (m ≫= f).
Proof.
  intros Hm Hf E w. rewrite bind_run. specialize (Hm E w).
  destruct (m E w) as [[a|e] w1]; cbn [snd] in *; [|done].
  by etrans; [|apply Hf].
Qed.

Lemma keeps_try_except {A} R `{!PreOrder R} (m : Py A) catches handler :
  keeps R m → (∀ e, keeps R (handler e)) →
  keeps R (try_except m catches handler).
Proof.
  intros Hm Hh E w. unfold try_except. specialize (Hm E w).
  destruct (m E w) as [[a|e] w1]; cbn [snd] in *; [done|].
  destruct (catches e); [|done]. by etrans; [|apply Hh].
Qed.

Lemma keeps_fs_op R `{!PreOrder R} effect :
  (∀ w, R w (World (stdout w) (net_log w) (dirs w) (files w)
                   (S (fs_clock w)))) →
  (∀ w, R w (effect w)) → keeps R (fs_op effect).
Proof.
  intros Htick Heff E w. unfold fs_op.
  destruct (fs_fault E (fs_clock w)); cbn [snd]; [done|].
  by etrans; [apply Htick|apply Heff].
Qed.

Lemma keeps_write_all {A} R `{!PreOrder R} path chunks (k : Py A) :
  (∀ s, keeps R (f_write path s)) → keeps R k →
  keeps R (write_all path chunks k).
Proof.
  intros Hw Hk. induction chunks as [|s chunks IH]; [done|].
  cbn [write_all]. by apply keeps_bind.
Qed.

Section Frame.
Context `{PyRuntime}.

Lemma persist_render_untouched ip data folder file :
  keeps (untouched (os_path_join folder file))
        (persist_render ip data folder file).
Proof.
  assert (Hstill : ∀ A (m : Py A),
            (∀ E w, net_log (m E w).2 = net_log w ∧ files (m E w).2 = files w) →
            keeps (untouched (os_path_join folder file)) m).
  { intros A m Hm E w. destruct (Hm E w) as [Hn Hf]. split; [done|].
    intros q _. by rewrite Hf. }
  assert (Hwrite : ∀ s,
            keeps (untouched (os_path_join folder file))
                  (f_write (os_path_join folder file) s)).
  { intros s. apply keeps_fs_op; [apply _|done|]. intros w. split; [done|].
    intros q Hq. cbn [files]. by rewrite lookup_insert_ne. }
  apply keeps_try_except; [apply _| |intros e; by apply Hstill].
  unfold persist_body.
  apply keeps_bind; [apply _|apply keeps_fs_op; [apply _|done..]|intros _].
  cbv zeta.
  apply keeps_bind; [apply _| |intros _].
  { apply keeps_fs_op; [apply _|done|]. intros w. split; [done|].
    intros q Hq. cbn [files]. by rewrite lookup_insert_ne. }
  apply keeps_bind; [apply _|by apply Hstill|intros now].
  apply keeps_bind; [apply _| |].
  { apply keeps_write_all; [apply _|done|by apply Hstill]. }
  intros [b|]; by apply Hstill.
Qed.
End Frame.

(** ** The calls [main] makes *)

Section MainRuns.
Context `{PyRuntime}.

Lemma get_current_ip_run E w resp ip :
  ipify E = Ret resp → py_getitem resp "ip" = Ret ip →
  get_current_ip E w = (Ret ip, logged ipify_url w).
Proof.
  intros Hr Hip. unfold get_current_ip, try_except, http_get.
  rewrite bind_run, Hr. unfold lift. by rewrite Hip.
Qed.

Lemma check_ip_reputation_run ip key E w payload :
  abuseipdb E ip key = Ret payload →
  check_ip_reputation ip key E w = (Ret payload, logged abuseipdb_url w).
Proof.
  intros Hr. unfold check_ip_reputation, try_except, http_get. by rewrite Hr.
Qed.

Lemma check_ip_reputation_fails ip key E w msg :
  abuseipdb E ip key = Raise (RequestException msg) →
  check_ip_reputation ip key E w
  = (Ret JNull,
     with_stdout (Colors.RED +:+ "Error checking IP reputation: " +:+ msg
                  +:+ Colors.END) (logged abuseipdb_url w)).
Proof.
  intros Hr. unfold check_ip_reputation, try_except, http_get. by rewrite Hr.
Qed.

Lemma main_reaches_lookup E w key resp ip :
  getenv_api_key E = Some key → key ≠ "" →
  ipify E = Ret resp → py_getitem resp "ip" = Ret ip → py_truthy ip = true →
  main E w
  = (reputation_data ← check_ip_reputation ip key;
     if py_truthy reputation_data then
       save_results_to_file ip reputation_data OUTPUT_FOLDER OUTPUT_FILENAME;;
       mret ()
     else
       print (Colors.RED +:+ "Failed to retrieve reputation data"
              +:+ Colors.END);;
       sys_exit 1) E (before_lookup ip w).
Proof.
  intros Hkey Hne Hr Hip Ht. unfold main.
  do 2 (rewrite bind_run; cbn [print]).
  rewrite bind_run. unfold os_getenv_api_key. rewrite Hkey.
  destruct key as [|c key]; [done|].
  rewrite bind_run; cbn [print].
  rewrite bind_run. erewrite get_current_ip_run by done. rewrite Ht.
  cbn [negb]. do 2 (rewrite bind_run; cbn [print]).
  reflexivity.
Qed.

(** A failed resolver call ends the run with status 1. *)
Lemma resolver_failure_exits_one E w key msg :
  getenv_api_key E = Some key → key ≠ "" →
  ipify E = Raise (RequestException msg) →
  (run_script E w).1 = 1 ∧ files (run_script E w).2 = files w.
Proof.
  intros Hkey Hne Hfail. unfold run_script, dunder_main, try_except, main.
  do 2 (rewrite bind_run; cbn [print]).
  rewrite bind_run. unfold os_getenv_api_key. rewrite Hkey.
  destruct key as [|c key]; [done|].
  rewrite bind_run; cbn [print]. rewrite bind_run.
  unfold get_current_ip, try_except, http_get. rewrite bind_run, Hfail.
  done.
Qed.

(** Ctrl-C while the resolver is awaited ends the run with status 0. *)
Lemma interrupt_exits_zero E w key :
  getenv_api_key E = Some key → key ≠ "" →
  ipify E = Raise KeyboardInterrupt →
  (run_script E w).1 = 0 ∧ files (run_script E w).2 = files w.
Proof.
  intros Hkey Hne Hfail. unfold run_script, dunder_main, try_except, main.
  do 2 (rewrite bind_run; cbn [print]).
  rewrite bind_run. unfold os_getenv_api_key. rewrite Hkey.
  destruct key as [|c key]; [done|].
  rewrite bind_run; cbn [print]. rewrite bind_run.
  unfold get_current_ip, try_except, http_get. rewrite bind_run, Hfail.
  done.
Qed.
End MainRuns.

(** * The claims *)

(** C1.  The tier of an integer score between 0 and 100 follows the fixed
    thresholds: 0 is CLEAN, 1 to 24 is LOW RISK, 25 to 74 is MODERATE RISK,
    75 to 100 is HIGH RISK; in particular at the seven boundary scores
    0, 1, 24, 25, 74, 75 and 100. *)
Theorem risk_status_thresholds (score : Z) :
  0 ≤ score ≤ 100 →
  (∃ tier,
     risk_status (JInt score) = Ret tier ∧
     (tier = "CLEAN" ↔ score = 0) ∧
     (tier = "LOW RISK" ↔ 1 ≤ score ≤ 24) ∧
     (tier = "MODERATE RISK" ↔ 25 ≤ score ≤ 74) ∧
     (tier = "HIGH RISK" ↔ 75 ≤ score ≤ 100)) ∧
  risk_status (JInt 0) = Ret "CLEAN" ∧
  risk_status (JInt 1) = Ret "LOW RISK" ∧
  risk_status (JInt 24) = Ret "LOW RISK" ∧
  risk_status (JInt 25) = Ret "MODERATE RISK" ∧
  risk_status (JInt 74) = Ret "MODERATE RISK" ∧
  risk_status (JInt 75) = Ret "HIGH RISK" ∧
  risk_status (JInt 100) = Ret "HIGH RISK".
Proof.
  intros Hrange. split; [|by repeat split].
  unfold risk_status, py_eq_int, py_lt_int. cbn [mbind outcome_bind].
  destruct (Z.eqb_spec score 0) as [->|Hz].
  { eexists. split; [done|]. repeat split; intros; try done; lia. }
  destruct (Z.ltb_spec score 25) as [Hlow|Hlow].
  { eexists. split; [done|]. repeat split; intros; try done; lia. }
  destruct (Z.ltb_spec score 75) as [Hmod|Hmod].
  { eexists. split; [done|]. repeat split; intros; try done; lia. }
  eexists. split; [done|]. repeat split; intros; try done; lia.
Qed.

Section Claims.
Context `{PyRuntime}.

(** C3.  The report is a function of the address, the record and the
    timestamp alone: two calls that agree on these three, in any two worlds,
    towards any two files and whatever else the environments hold, return the
    same value and leave the same text in their file (no file-system
    operation failing in either). *)
Theorem report_depends_on_inputs_only ip data E1 E2 w1 w2
    folder1 file1 folder2 file2 :
  clock_now E1 = clock_now E2 → no_faults E1 → no_faults E2 →
  let run1 := save_results_to_file ip data folder1 file1 E1 w1 in
  let run2 := save_results_to_file ip data folder2 file2 E2 w2 in
  run1.1 = run2.1 ∧
  files run1.2 !! os_path_join folder1 file1
  = files run2.2 !! os_path_join folder2 file2 ∧
  is_Some (files run1.2 !! os_path_join folder1 file1).
Proof.
  intros Hnow HE1 HE2 run1 run2. subst run1 run2.
  rewrite !save_no_faults by done. cbv zeta. rewrite <- Hnow.
  destruct (render ip data (clock_now E1)) as [chunks o]. cbn [fst snd].
  unfold save_end.
  destruct o as [[b|]|e]; [| |destruct (is_Exception e)];
    cbn [fst snd saved_world with_stdout files];
    rewrite !lookup_insert_eq; eauto.
Qed.

(** C4.  When the record holds a non-empty list of reports, the report ends
    with one line for each of the first five of them and for no other, in the
    order received: line [i] is built from entry [i], as its timestamp, a
    colon, and its category codes turned into strings and joined by commas in
    their order. *)
Theorem first_five_reports ip data folder file E w d st rs lines :
  no_faults E →
  py_getitem data "data" = Ret (JDict d) →
  risk_status (field d "abuseConfidenceScore" (JInt 0)) = Ret st →
  dict_lookup "reports" d = Some (JList rs) → rs ≠ [] →
  outcome_mapM entry_line (take 5 rs) = Ret lines →
  let run := save_results_to_file ip data folder file E w in
  run.1 = Ret true ∧
  files run.2 !! os_path_join folder file
  = Some (concat_chunks
            (report_banner ip (clock_now E) ++ report_fields d st
             ++ [nl +:+ "Recent Reports:" +:+ nl] ++ lines ++ [report_foot])) ∧
  length lines = (length rs `min` 5)%nat ∧
  ∀ i report,
    (i < 5)%nat → rs !! i = Some report →
    ∃ e items,
      report = JDict e ∧
      py_iter (field e "categories" (JList [])) = Ret items ∧
      lines !! i
      = Some ("  - " +:+ py_str (field e "reportedAt" (JStr "N/A")) +:+ ": "
              +:+ String.concat ", " (py_str <$> items) +:+ nl).
Proof.
  intros HE Hd Hst Hrs Hne Hlines run. subst run.
  erewrite save_full_report by eauto using recent_plan_list.
  cbn [fst snd with_stdout saved_world files]. rewrite lookup_insert_eq.
  destruct (outcome_mapM_lookup _ _ _ Hlines) as [Hlen Hlook].
  split; [done|]. split; [done|]. split.
  { rewrite Hlen, length_take. lia. }
  intros i report Hi Hreport.
  destruct (Hlook i report) as (line & Hline & Hentry).
  { by rewrite lookup_take_lt. }
  apply entry_line_inv in Hentry as (e & items & -> & Hitems & ->).
  by exists e, items.
Qed.

(** C5.  When the record is absent ([None]) or is a dict without the key
    [data], the file holds the single line "No data received from API" and
    nothing else, whatever the address and the timestamp; no tier is worked
    out, nothing is printed, and the call returns [False]. *)
Theorem no_data_report ip data folder file E w :
  no_faults E →
  data = JNull ∨ (∃ dd, data = JDict dd ∧ dict_lookup "data" dd = None) →
  save_results_to_file ip data folder file E w
  = (Ret false,
     saved_world folder (os_path_join folder file)
       ("No data received from API" +:+ nl) 3 w).
Proof.
  intros HE Hdata. apply save_unusable_payload; [done|].
  by apply absent_unusable.
Qed.

(** C6.  Each field the record lacks is replaced by its default in the
    report, whatever the other fields are: 0 for the score (hence CLEAN),
    "Unknown" for the country name, the provider and the usage type, "N/A"
    for the country code and the domain, 0 for the two counts, "Never" for
    the last report, and "No" for the whitelist flag. *)
Theorem missing_fields_get_defaults ip data folder file E w d st recent :
  no_faults E →
  py_getitem data "data" = Ret (JDict d) →
  risk_status (field d "abuseConfidenceScore" (JInt 0)) = Ret st →
  recent_plan d = (recent, Ret ()) →
  let run := save_results_to_file ip data folder file E w in
  run.1 = Ret true ∧
  files run.2 !! os_path_join folder file
  = Some (concat_chunks
            (report_banner ip (clock_now E) ++ report_fields d st
             ++ recent ++ [report_foot])) ∧
  (dict_lookup "abuseConfidenceScore" d = None →
   st = "CLEAN" ∧
   "Abuse Confidence Score: 0%" +:+ nl +:+ nl ∈ report_fields d st) ∧
  (dict_lookup "countryName" d = None →
   "Country: Unknown (" +:+ py_str (field d "countryCode" (JStr "N/A"))
     +:+ ")" +:+ nl ∈ report_fields d st) ∧
  (dict_lookup "countryCode" d = None →
   "Country: " +:+ py_str (field d "countryName" (JStr "Unknown"))
     +:+ " (N/A)" +:+ nl ∈ report_fields d st) ∧
  (∀ key dflt label,
     (key, dflt, label) ∈ plain_fields → dict_lookup key d = None →
     label +:+ py_str dflt +:+ nl ∈ report_fields d st) ∧
  (dict_lookup "isWhitelisted" d = None →
   "Whitelisted: No" +:+ nl ∈ report_fields d st).
Proof.
  intros HE Hd Hst Hrec run. subst run.
  erewrite save_full_report by eauto.
  cbn [fst snd with_stdout saved_world files]. rewrite lookup_insert_eq.
  split; [done|]. split; [done|]. unfold report_fields, field.
  split; [|split; [|split; [|split]]].
  - intros Hk. unfold field in Hst. rewrite Hk in Hst |- *.
    split; [by injection Hst|set_solver].
  - intros Hk. rewrite Hk. set_solver.
  - intros Hk. rewrite Hk. set_solver.
  - intros key dflt label Hin Hk. unfold plain_fields in Hin.
    repeat (apply elem_of_cons in Hin as [[= -> -> ->]|Hin];
            [rewrite Hk; set_solver|]).
    by apply elem_of_nil in Hin.
  - intros Hk. rewrite Hk. set_solver.
Qed.

(** C7, as amended.  In a run that got as far as the lookup: when the lookup
    call fails, or succeeds with a payload that counts as false (the empty
    object among them), the status is 1 and no file-system operation is even
    attempted; when it succeeds with a payload that counts as true and has no
    [data], the one-line report is written and [save_results_to_file]
    returns [False]. *)
Theorem lookup_outcomes E w key resp ip :
  getenv_api_key E = Some key → key ≠ "" →
  ipify E = Ret resp → py_getitem resp "ip" = Ret ip → py_truthy ip = true →
  let run := run_script E w in
  (∀ msg,
     abuseipdb E ip key = Raise (RequestException msg) →
     run.1 = 1 ∧ files run.2 = files w ∧ dirs run.2 = dirs w ∧
     fs_clock run.2 = fs_clock w) ∧
  (∀ payload,
     abuseipdb E ip key = Ret payload → py_truthy payload = false →
     run.1 = 1 ∧ files run.2 = files w ∧ dirs run.2 = dirs w ∧
     fs_clock run.2 = fs_clock w) ∧
  (∀ payload,
     abuseipdb E ip key = Ret payload → py_truthy payload = true →
     py_contains "data" payload = Ret false → no_faults E →
     save_results_to_file ip payload OUTPUT_FOLDER OUTPUT_FILENAME E
       (before_save ip w)
     = (Ret false,
        saved_world OUTPUT_FOLDER report_path no_data_text 3
          (before_save ip w)) ∧
     files run.2 = <[report_path := no_data_text]> (files w)).
Proof.
  intros Hkey Hne Hresp Hip Htruthy run. subst run.
  unfold run_script, dunder_main, try_except.
  rewrite (main_reaches_lookup _ _ _ _ _ Hkey Hne Hresp Hip Htruthy).
  split; [|split].
  - intros msg Hfail. rewrite bind_run.
    by rewrite (check_ip_reputation_fails _ _ _ _ _ Hfail).
  - intros payload Hok Hfalsy. rewrite bind_run.
    rewrite (check_ip_reputation_run _ _ _ _ _ Hok). by rewrite Hfalsy.
  - intros payload Hok Ht Hc HE.
    assert (Hsave : save_results_to_file ip payload OUTPUT_FOLDER
                      OUTPUT_FILENAME E (before_save ip w)
                    = (Ret false,
                       saved_world OUTPUT_FOLDER report_path no_data_text 3
                         (before_save ip w))).
    { apply save_unusable_payload; [done|by right]. }
    split; [done|]. rewrite bind_run.
    rewrite (check_ip_reputation_run _ _ _ _ _ Hok). rewrite Ht.
    rewrite bind_run. fold (before_save ip w). by rewrite Hsave.
Qed.

(** C8.  Without an API key (the variable unset, or set to the empty
    string) the run ends with status 1 and has made no request: the network
    log is what it was, and so are the files and the folders. *)
Theorem missing_key_exits_before_network E w :
  getenv_api_key E = None ∨ getenv_api_key E = Some "" →
  (run_script E w).1 = 1 ∧
  net_log (run_script E w).2 = net_log w ∧
  files (run_script E w).2 = files w ∧
  dirs (run_script E w).2 = dirs w.
Proof.
  intros Hkey. unfold run_script, dunder_main, try_except, main.
  do 2 (rewrite bind_run; cbn [print]).
  rewrite bind_run. unfold os_getenv_api_key.
  by destruct Hkey as [-> | ->].
Qed.

(** C9, as amended.  The code has no renderer apart from the function that
    saves: [save_results_to_file] creates the folder, opens the file and
    writes it, and returns a boolean, not the text.  What it writes is
    nevertheless worked out without any effect: whatever the payload and
    whatever the file system does, the call behaves as [persist_render],
    which carries to the disk the chunks the pure function [render] gives;
    it makes no request and touches no other file. *)
Theorem save_results_to_file_does_the_io ip data folder file E w :
  let run := save_results_to_file ip data folder file E w in
  run = persist_render ip data folder file E w ∧
  net_log run.2 = net_log w ∧
  ∀ q, q ≠ os_path_join folder file → files run.2 !! q = files w !! q.
Proof.
  intros run. subst run. rewrite save_results_to_file_persist.
  split; [done|]. apply persist_render_untouched.
Qed.

(** C10.  What the boolean means.  [True] is returned only when the complete
    report is in the file, and it is returned whenever the payload is well
    formed and no file-system operation fails; [False] is returned, with the
    one-line report in the file, when the payload is absent or has no [data];
    [False] is returned as soon as a file-system operation of the call raises
    an [Exception]; and no [Exception] ever leaves the call. *)
Theorem save_result_meaning ip data folder file E w :
  let path := os_path_join folder file in
  let run := save_results_to_file ip data folder file E w in
  (run.1 = Ret true →
   ∃ d st recent,
     py_getitem data "data" = Ret (JDict d) ∧
     risk_status (field d "abuseConfidenceScore" (JInt 0)) = Ret st ∧
     recent_plan d = (recent, Ret ()) ∧
     files run.2 !! path = Some (report_text ip (clock_now E) d st recent)) ∧
  (no_faults E →
   (∃ d st recent,
      py_getitem data "data" = Ret (JDict d) ∧
      risk_status (field d "abuseConfidenceScore" (JInt 0)) = Ret st ∧
      recent_plan d = (recent, Ret ())) →
   run.1 = Ret true) ∧
  (no_faults E →
   data = JNull ∨ (∃ dd, data = JDict dd ∧ dict_lookup "data" dd = None) →
   run.1 = Ret false ∧ files run.2 !! path = Some no_data_text) ∧
  (∀ n e,
     (fs_clock w ≤ n < fs_clock run.2)%nat →
     fs_fault E n = Some e → is_Exception e = true →
     run.1 = Ret false) ∧
  (∀ e, run.1 = Raise e → is_Exception e = false).
Proof.
  intros path run. subst path run.
  split; [|split; [|split; [|split]]].
  - intros Htrue. destruct (save_true_inv _ _ _ _ _ _ Htrue) as [Ho Hfile].
    destruct (render_full_inv _ _ _ Ho)
      as (d & st & recent & Hd & Hst & Hrec & Hchunks).
    exists d, st, recent. by rewrite Hfile, Hchunks.
  - intros HE (d & st & recent & Hd & Hst & Hrec).
    by erewrite save_full_report.
  - intros HE Hdata.
    rewrite save_unusable_payload by auto using absent_unusable.
    cbn [fst snd saved_world files]. by rewrite lookup_insert_eq.
  - apply save_fault_false.
  - intros e. rewrite save_results_to_file_persist.
    unfold persist_render, try_except.
    destruct (persist_body ip data folder file E w) as [[b|e'] w1]; [done|].
    destruct (is_Exception e') eqn:He'; [done|]. by intros [= <-].
Qed.
End Claims.

(** ** The exit status after a save *)

Section DroppedResult.
Context `{PyRuntime}.

(** [main] calls [save_results_to_file] as a statement: whatever boolean
    comes back, the run goes on to its end and the status is 0. *)
Lemma save_result_is_dropped E w key resp ip payload b w' :
  getenv_api_key E = Some key → key ≠ "" →
  ipify E = Ret resp → py_getitem resp "ip" = Ret ip → py_truthy ip = true →
  abuseipdb E ip key = Ret payload → py_truthy payload = true →
  save_results_to_file ip payload OUTPUT_FOLDER OUTPUT_FILENAME E
    (before_save ip w) = (Ret b, w') →
  run_script E w = (0, w').
Proof.
  intros Hkey Hne Hresp Hip Htruthy Hok Ht Hsave.
  unfold run_script, dunder_main, try_except.
  rewrite (main_reaches_lookup _ _ _ _ _ Hkey Hne Hresp Hip Htruthy).
  rewrite bind_run, (check_ip_reputation_run _ _ _ _ _ Hok), Ht.
  rewrite bind_run. fold (before_save ip w). by rewrite Hsave.
Qed.
End DroppedResult.

(** * Further properties of the code *)

Section Further.
Context `{PyRuntime}.

Lemma main_reaches_resolver E w key :
  getenv_api_key E = Some key → key ≠ "" →
  main E w
  = (ip_address ← get_current_ip;
     if negb (py_truthy ip_address) then sys_exit 1
     else
       print ("Your IP: " +:+ py_str ip_address +:+ nl);;
       print "Checking IP reputation against threat database...";;
       reputation_data ← check_ip_reputation ip_address key;
       if py_truthy reputation_data then
         save_results_to_file ip_address reputation_data
                              OUTPUT_FOLDER OUTPUT_FILENAME;;
         mret ()
       else
         print (Colors.RED +:+ "Failed to retrieve reputation data"
                +:+ Colors.END);;
         sys_exit 1) E (before_resolver w).
Proof.
  intros Hkey Hne. unfold main.
  do 2 (rewrite bind_run; cbn [print]).
  rewrite bind_run. unfold os_getenv_api_key. rewrite Hkey.
  destruct key as [|c key]; [done|].
  rewrite bind_run; cbn [print]. reflexivity.
Qed.

Lemma py_getitem_raises v key e :
  py_getitem v key = Raise e → is_RequestException e = false.
Proof.
  destruct v as [| | | | |d]; cbn; try by intros [= <-].
  destruct (dict_lookup key d); [done|]. by intros [= <-].
Qed.

(** X1.  With a key configured, a resolver that gives no usable address
    ends the run with status 1 after that one request: a
    [requests.RequestException] is caught and reported on the terminal; an
    answer without the key [ip] (or one that is no object) raises a
    [KeyError] or [TypeError] that nothing catches; an address that counts
    as false ends the run without a word.  In the three cases the lookup is
    never requested and the file system is not touched. *)
Theorem resolver_outcomes E w key :
  getenv_api_key E = Some key → key ≠ "" →
  let run := run_script E w in
  (∀ msg,
     ipify E = Raise (RequestException msg) →
     run = (1, with_stdout (Colors.RED +:+ "Error getting IP address: "
                            +:+ msg +:+ Colors.END)
                 (logged ipify_url (before_resolver w)))) ∧
  (∀ resp e,
     ipify E = Ret resp → py_getitem resp "ip" = Raise e →
     run = (1, logged ipify_url (before_resolver w))) ∧
  (∀ resp ip,
     ipify E = Ret resp → py_getitem resp "ip" = Ret ip →
     py_truthy ip = false →
     run = (1, logged ipify_url (before_resolver w))).
Proof.
  intros Hkey Hne run. subst run.
  unfold run_script, dunder_main, try_except.
  rewrite (main_reaches_resolver _ _ _ Hkey Hne). rewrite bind_run.
  unfold get_current_ip, try_except, http_get. rewrite bind_run.
  split; [|split].
  - intros msg ->. reflexivity.
  - intros resp e -> Hip. unfold lift. rewrite Hip.
    rewrite (py_getitem_raises _ _ _ Hip).
    destruct resp as [| | | | |d]; cbn in Hip; try by injection Hip as <-.
    destruct (dict_lookup "ip" d); [done|]. by injection Hip as <-.
  - intros resp ip -> Hip Hfalsy. unfold lift. rewrite Hip, Hfalsy.
    reflexivity.
Qed.

Lemma run_script_net_log E w :
  net_log (run_script E w).2 = net_log (main E w).2.
Proof.
  unfold run_script, dunder_main, try_except.
  destruct (main E w) as [[[]|e] w1]; [done|].
  by destruct e.
Qed.

Lemma save_keeps_net_log ip data folder file E w :
  net_log (save_results_to_file ip data folder file E w).2 = net_log w.
Proof.
  rewrite save_results_to_file_persist.
  apply (persist_render_untouched ip data folder file E w).
Qed.

(** X2.  Whatever the outside world answers, a run makes no request, or one
    to the resolver, or one to the resolver followed by one to AbuseIPDB:
    never more, never in another order, and the second only once the
    resolver has given an address that counts as true. *)
Theorem requests_in_order E w :
  let log := net_log (run_script E w).2 in
  (log = net_log w ∧
   (getenv_api_key E = None ∨ getenv_api_key E = Some "")) ∨
  log = net_log w ++ [ipify_url] ∨
  (log = net_log w ++ [ipify_url; abuseipdb_url] ∧
   ∃ resp ip,
     ipify E = Ret resp ∧ py_getitem resp "ip" = Ret ip ∧
     py_truthy ip = true).
Proof.
  intros log. subst log. rewrite run_script_net_log.
  destruct (getenv_api_key E) as [key|] eqn:Hkey.
  2:{ left. split; [|by left]. unfold main.
      do 2 (rewrite bind_run; cbn [print]). rewrite bind_run.
      unfold os_getenv_api_key. by rewrite Hkey. }
  destruct (decide (key = "")) as [->|Hne].
  { left. split; [|by right]. unfold main.
    do 2 (rewrite bind_run; cbn [print]). rewrite bind_run.
    unfold os_getenv_api_key. by rewrite Hkey. }
  right. rewrite (main_reaches_resolver _ _ _ Hkey Hne). rewrite bind_run.
  unfold get_current_ip, try_except, http_get. rewrite bind_run.
  destruct (ipify E) as [resp|e] eqn:Hresp.
  2:{ left. by destruct (is_RequestException e). }
  unfold lift. destruct (py_getitem resp "ip") as [ip|e] eqn:Hip.
  2:{ left. by rewrite (py_getitem_raises _ _ _ Hip). }
  destruct (py_truthy ip) eqn:Ht; cbn [negb]; [|by left].
  right. split; [|by exists resp, ip].
  do 2 (rewrite bind_run; cbn [print]). rewrite bind_run.
  unfold check_ip_reputation, try_except, http_get.
  destruct (abuseipdb E ip key) as [payload|e].
  - destruct (py_truthy payload).
    2:{ rewrite bind_run. cbn. by rewrite <- (assoc_L (++)). }
    rewrite bind_run.
    match goal with
    | |- context [save_results_to_file ?i ?d ?fo ?fi E ?w0] =>
        pose proof (save_keeps_net_log i d fo fi E w0) as Hsave;
        destruct (save_results_to_file i d fo fi E w0) as [[b|e] w1]
    end; cbn [snd fst] in *; cbn; rewrite Hsave; cbn;
      by rewrite <- (assoc_L (++)).
  - destruct (is_RequestException e);
      repeat first [progress cbn | rewrite bind_run];
      by rewrite <- (assoc_L (++)).
Qed.

Lemma main_reaches_save E w key resp ip payload :
  getenv_api_key E = Some key → key ≠ "" →
  ipify E = Ret resp → py_getitem resp "ip" = Ret ip → py_truthy ip = true →
  abuseipdb E ip key = Ret payload → py_truthy payload = true →
  main E w
  = (save_results_to_file ip payload OUTPUT_FOLDER OUTPUT_FILENAME;;
     mret ()) E (before_save ip w).
Proof.
  intros Hkey Hne Hresp Hip Ht Hok Hp.
  rewrite (main_reaches_lookup _ _ _ _ _ Hkey Hne Hresp Hip Ht).
  by rewrite bind_run, (check_ip_reputation_run _ _ _ _ _ Hok), Hp.
Qed.

(** X3.  The whole run when everything works: status 0, the two requests,
    the lookup made for the address the resolver gave and with the key
    configured, the complete report for that address in
    ./reports/ip-rep-report.txt, and "Results saved to ..." as last line. *)
Theorem end_to_end_success E w key resp ip payload d st recent :
  getenv_api_key E = Some key → key ≠ "" →
  ipify E = Ret resp → py_getitem resp "ip" = Ret ip → py_truthy ip = true →
  abuseipdb E ip key = Ret payload →
  py_getitem payload "data" = Ret (JDict d) →
  risk_status (field d "abuseConfidenceScore" (JInt 0)) = Ret st →
  recent_plan d = (recent, Ret ()) →
  no_faults E →
  run_script E w
  = (0,
     with_stdout (Colors.GREEN +:+ "Results saved to " +:+ report_path
                  +:+ Colors.END)
       (saved_world OUTPUT_FOLDER report_path
          (report_text ip (clock_now E) d st recent) (18 + length recent)
          (before_save ip w))).
Proof.
  intros Hkey Hne Hresp Hip Ht Hok Hd Hst Hrec HE.
  destruct (getitem_data_inv _ _ Hd) as [Hp _].
  unfold run_script, dunder_main, try_except.
  rewrite (main_reaches_save _ _ _ _ _ _ Hkey Hne Hresp Hip Ht Hok Hp).
  rewrite bind_run. by erewrite save_full_report.
Qed.

Lemma entries_plan_raises entries e :
  (entries_plan entries).2 = Raise e → is_Exception e = true.
Proof.
  induction entries as [|r entries IH]; [done|]. cbn [entries_plan].
  destruct (entry_line r) as [line|e'] eqn:Hr; plan_simpl.
  - destruct (entries_plan entries) as [chunks o]. plan_simpl. apply IH.
  - intros [= <-]. unfold entry_line, py_get in Hr.
    destruct r as [| | | | |d]; cbn in Hr; try by injection Hr as <-.
    destruct (py_iter (default (JList []) (dict_lookup "categories" d)))
      as [items|e''] eqn:Hi; cbn in Hr; [done|]. injection Hr as <-.
    by destruct (default (JList []) (dict_lookup "categories" d));
      cbn in Hi; try injection Hi as <-.
Qed.

Lemma render_raises ip data now e :
  (render ip data now).2 = Raise e → is_Exception e = true.
Proof.
  unfold render.
  destruct (py_truthy data); cbn [negb]; plan_simpl; [|done].
  destruct (py_contains "data" data) as [[|]|e'] eqn:Hc; cbn [negb];
    plan_simpl; [|done|].
  2:{ intros [= <-]. by destruct data; cbn in Hc; try injection Hc as <-. }
  destruct (py_getitem data "data") as [info|e'] eqn:Hg; plan_simpl.
  2:{ intros [= <-]. destruct data as [| | | | |dd]; cbn in Hg;
        try by injection Hg as <-.
      destruct (dict_lookup "data" dd); [done|]. by injection Hg as <-. }
  destruct info as [| | | | |d]; cbn [as_dict]; plan_simpl;
    try by intros [= <-].
  destruct (risk_status (field d "abuseConfidenceScore" (JInt 0)))
    as [st|e'] eqn:Hst; plan_simpl.
  2:{ intros [= <-]. unfold risk_status in Hst.
      destruct (py_eq_int _ 0); [done|].
      destruct (field d "abuseConfidenceScore" (JInt 0)); cbn in Hst;
        try (by injection Hst as <-);
        repeat (match type of Hst with
                | context [if ?b then _ else _] => destruct b
                end; cbn in Hst); done. }
  pose proof (entries_plan_raises) as Hentries.
  unfold recent_plan.
  destruct (py_truthy (field d "reports" JNull)); plan_simpl; [|done].
  destruct (py_slice_to 5 (field d "reports" JNull)) as [five|e'] eqn:Hs;
    plan_simpl.
  2:{ intros [= <-]. by destruct (field d "reports" JNull);
        cbn in Hs; try injection Hs as <-. }
  destruct (py_iter five) as [entries|e'] eqn:Hi; plan_simpl.
  2:{ intros [= <-]. by destruct five; cbn in Hi; try injection Hi as <-. }
  specialize (Hentries entries).
  destruct (entries_plan entries) as [chunks [[]|e']]; plan_simpl; [done|].
  intros [= <-]. by apply Hentries.
Qed.

(** X4.  With a file system that works, [save_results_to_file] never
    raises, whatever the payload is: it returns a boolean, the folder exists
    and the file exists afterwards; when it returns [False] it has printed
    either nothing (the one-line report) or one "Error saving file" line. *)
Theorem save_returns_on_any_payload ip data folder file E w :
  no_faults E →
  let run := save_results_to_file ip data folder file E w in
  (∃ b, run.1 = Ret b) ∧
  is_Some (files run.2 !! os_path_join folder file) ∧
  folder ∈ dirs run.2 ∧
  (run.1 = Ret false →
   stdout run.2 = stdout w ∨
   ∃ e, stdout run.2
        = stdout w ++ [Colors.RED +:+ "Error saving file: " +:+ exn_str e
                       +:+ Colors.END]).
Proof.
  intros HE run. subst run. rewrite save_no_faults by done. cbv zeta.
  pose proof (render_raises ip data (clock_now E)) as Hraise.
  destruct (render ip data (clock_now E)) as [chunks o]. cbn [fst snd] in *.
  unfold save_end.
  destruct o as [[b|]|e]; [| |rewrite (Hraise e eq_refl)];
    cbn [fst snd saved_world with_stdout files dirs stdout];
    rewrite lookup_insert_eq; (split; [eauto|]); (split; [eauto|]);
    (split; [set_solver|]); try done; eauto.
Qed.

(** X5.  A payload that is not a JSON object never gives a report: the call
    returns [False], and the file holds the one-line text (a payload that
    counts as false, or a list or string in which "data" does not occur) or
    is left empty (a number, [true], a list or a string in which "data"
    occurs). *)
Theorem non_object_payload ip data folder file E w :
  no_faults E → (∀ dd, data ≠ JDict dd) →
  let run := save_results_to_file ip data folder file E w in
  run.1 = Ret false ∧
  files run.2 !! os_path_join folder file
  = Some (if negb (py_truthy data) then no_data_text
          else match py_contains "data" data with
               | Ret false => no_data_text
               | _ => ""
               end).
Proof.
  intros HE Hdata run. subst run. rewrite save_no_faults by done. cbv zeta.
  pose proof (render_raises ip data (clock_now E)) as Hraise. revert Hraise.
  unfold render.
  destruct (py_truthy data) eqn:Ht; plan_simpl; cbn [negb]; plan_simpl.
  2:{ intros _. cbn [save_end fst snd saved_world files].
      by rewrite lookup_insert_eq. }
  destruct (py_contains "data" data) as [[|]|e] eqn:Hc; cbn [negb]; plan_simpl.
  - destruct (py_getitem data "data") as [info|e] eqn:Hg; plan_simpl.
    { destruct data as [| | | | |dd]; cbn in Hg; try done.
      by destruct (Hdata dd). }
    intros Hraise. cbn [save_end]. rewrite Hraise by done.
    cbn [fst snd saved_world with_stdout files]. by rewrite lookup_insert_eq.
  - intros _. cbn [save_end fst snd saved_world files].
    by rewrite lookup_insert_eq.
  - intros Hraise. cbn [save_end]. rewrite Hraise by done.
    cbn [fst snd saved_world with_stdout files]. by rewrite lookup_insert_eq.
Qed.

(** X6.  When [data] is there but is no object, or is an object whose score
    cannot be compared with a number, the file is left with the banner, the
    address and the date only; the call prints its error and returns
    [False]. *)
Theorem bad_record_truncates_report ip data info folder file E w :
  no_faults E →
  py_getitem data "data" = Ret info →
  (∀ d, info = JDict d →
        ∃ e, risk_status (field d "abuseConfidenceScore" (JInt 0)) = Raise e) →
  let run := save_results_to_file ip data folder file E w in
  run.1 = Ret false ∧
  files run.2 !! os_path_join folder file
  = Some (concat_chunks (report_banner ip (clock_now E))) ∧
  ∃ e, stdout run.2
       = stdout w ++ [Colors.RED +:+ "Error saving file: " +:+ exn_str e
                      +:+ Colors.END].
Proof.
  intros HE Hg Hinfo run. subst run. rewrite save_no_faults by done. cbv zeta.
  destruct (getitem_data_inv _ _ Hg) as [Ht Hc].
  pose proof (render_raises ip data (clock_now E)) as Hraise. revert Hraise.
  unfold render. rewrite Ht, Hc. plan_simpl. cbn [negb]. rewrite Hg.
  plan_simpl.
  destruct info as [| | | | |d]; cbn [as_dict]; plan_simpl.
  6: destruct (Hinfo d eq_refl) as [e ->]; plan_simpl.
  all: rewrite app_nil_r; intros Hraise; cbn [save_end];
    rewrite Hraise by done;
    cbn [fst snd saved_world with_stdout files stdout];
    rewrite lookup_insert_eq; eauto.
Qed.



(** X8.  When [reports] is missing, [null] or an empty list, the report has
    no "Recent Reports:" section at all: banner, fields, closing rule. *)
Theorem no_recent_section ip data folder file E w d st :
  no_faults E →
  py_getitem data "data" = Ret (JDict d) →
  risk_status (field d "abuseConfidenceScore" (JInt 0)) = Ret st →
  dict_lookup "reports" d = None ∨ dict_lookup "reports" d = Some JNull ∨
  dict_lookup "reports" d = Some (JList []) →
  let run := save_results_to_file ip data folder file E w in
  run.1 = Ret true ∧
  files run.2 !! os_path_join folder file
  = Some (concat_chunks
            (report_banner ip (clock_now E) ++ report_fields d st
             ++ [report_foot])).
Proof.
  intros HE Hg Hst Hrs run. subst run.
  assert (Hrec : recent_plan d = ([], Ret ())).
  { unfold recent_plan, field. by destruct Hrs as [->|[->| ->]]. }
  erewrite save_full_report by eauto.
  cbn [fst snd with_stdout saved_world files]. by rewrite lookup_insert_eq.
Qed.

Lemma write_all_first_fault {A} path chunks (k : Py A) E w c j e :
  files w !! path = Some c →
  (∀ i, (i < j)%nat → fs_fault E (fs_clock w + i) = None) →
  fs_fault E (fs_clock w + j) = Some e →
  (j < length chunks)%nat →
  write_all path chunks k E w
  = (Raise e,
     World (stdout w) (net_log w) (dirs w)
           (<[path := c +:+ concat_chunks (take j chunks)]> (files w))
           (S j + fs_clock w)).
Proof.
  revert w c j. induction chunks as [|s chunks IH]; intros w c j Hc Hok Hbad Hj.
  { cbn in Hj. lia. }
  cbn [write_all]. rewrite bind_run. unfold f_write, fs_op.
  destruct j as [|j].
  - rewrite Nat.add_0_r in Hbad. rewrite Hbad. cbn [take concat_chunks foldr].
    by rewrite str_app_nil_r, insert_id.
  - rewrite <- (Nat.add_0_r (fs_clock w)) at 1. rewrite Hok by lia.
    erewrite (IH _ (c +:+ s) j); cbn [files fs_clock stdout net_log dirs].
    + rewrite Hc. cbn [default from_option id take concat_chunks foldr].
      rewrite insert_insert_eq, str_app_assoc. do 2 f_equal. lia.
    + rewrite Hc. apply lookup_insert_eq.
    + intros i Hi. rewrite <- (Hok (S i)) by lia. f_equal. lia.
    + rewrite <- Hbad. f_equal. lia.
    + cbn in Hj. lia.
Qed.

Lemma save_first_fault_at_write ip data folder file E w j e :
  (∀ i, (i < j + 2)%nat → fs_fault E (fs_clock w + i) = None) →
  fs_fault E (fs_clock w + (j + 2)) = Some e →
  (j < length (render ip data (clock_now E)).1)%nat →
  save_results_to_file ip data folder file E w
  = save_end (os_path_join folder file) (Raise e)
      (saved_world folder (os_path_join folder file)
         (concat_chunks (take j (render ip data (clock_now E)).1)) (j + 3) w).
Proof.
  intros Hok Hbad Hj. rewrite save_results_to_file_persist.
  unfold persist_render, persist_body, try_except.
  rewrite bind_run, mkdir_run.
  2:{ rewrite <- (Hok 0%nat) by lia. f_equal. lia. }
  rewrite bind_run, open_w_run.
  2:{ cbn [fs_clock]. rewrite <- (Hok 1%nat) by lia. f_equal. lia. }
  cbv zeta. rewrite now_bind, bind_run. unfold emit.
  erewrite (write_all_first_fault _ _ _ _ _ "" j e);
    cbn [files fs_clock stdout net_log dirs].
  - rewrite insert_insert_eq. change ("" +:+ ?s) with s.
    replace (S j + S (S (fs_clock w)))%nat with (j + 3 + fs_clock w)%nat by lia.
    reflexivity.
  - apply lookup_insert_eq.
  - intros i Hi. rewrite <- (Hok (i + 2)%nat) by lia. f_equal. lia.
  - rewrite <- Hbad. f_equal. lia.
  - done.
Qed.

(** X9.  When the write number [j] (from 0) is the first file-system
    operation of the call to fail, with an [Exception], the file is left with
    exactly the [j] pieces written before it, whatever it held earlier; the
    error is printed and the call returns [False]. *)
Theorem failed_write_leaves_partial_file ip data folder file E w j e :
  (∀ i, (i < j + 2)%nat → fs_fault E (fs_clock w + i) = None) →
  fs_fault E (fs_clock w + (j + 2)) = Some e →
  is_Exception e = true →
  (j < length (render ip data (clock_now E)).1)%nat →
  let run := save_results_to_file ip data folder file E w in
  run.1 = Ret false ∧
  files run.2 !! os_path_join folder file
  = Some (concat_chunks (take j (render ip data (clock_now E)).1)) ∧
  stdout run.2
  = stdout w ++ [Colors.RED +:+ "Error saving file: " +:+ exn_str e
                 +:+ Colors.END].
Proof.
  intros Hok Hbad He Hj run. subst run.
  rewrite (save_first_fault_at_write _ _ _ _ _ _ j e) by done.
  cbn [save_end]. rewrite He.
  cbn [fst snd saved_world with_stdout files stdout].
  by rewrite lookup_insert_eq.
Qed.




(** X11.  Ctrl-C ends the run with status 0 and "Operation cancelled by
    user" as last line, wherever it falls: while the resolver is awaited,
    while the lookup is awaited, and while the report is being written: the
    [except Exception] of [save_results_to_file] does not catch it, and the
    pieces written so far stay in the file. *)
Theorem interrupt_is_a_clean_exit E w key :
  getenv_api_key E = Some key → key ≠ "" →
  let run := run_script E w in
  (ipify E = Raise KeyboardInterrupt →
   run = (0, cancelled (logged ipify_url (before_resolver w)))) ∧
  (∀ resp ip,
     ipify E = Ret resp → py_getitem resp "ip" = Ret ip →
     py_truthy ip = true →
     abuseipdb E ip key = Raise KeyboardInterrupt →
     run = (0, cancelled (before_save ip w))) ∧
  (∀ resp ip payload j,
     ipify E = Ret resp → py_getitem resp "ip" = Ret ip →
     py_truthy ip = true →
     abuseipdb E ip key = Ret payload → py_truthy payload = true →
     (∀ i, (i < j + 2)%nat → fs_fault E (fs_clock w + i) = None) →
     fs_fault E (fs_clock w + (j + 2)) = Some KeyboardInterrupt →
     (j < length (render ip payload (clock_now E)).1)%nat →
     run = (0, cancelled
                 (saved_world OUTPUT_FOLDER report_path
                    (concat_chunks (take j (render ip payload (clock_now E)).1))
                    (j + 3) (before_save ip w)))).
Proof.
  intros Hkey Hne run. subst run. split; [|split].
  - intros Hi. unfold run_script, dunder_main, try_except.
    rewrite (main_reaches_resolver _ _ _ Hkey Hne). rewrite bind_run.
    unfold get_current_ip, try_except, http_get. rewrite bind_run, Hi.
    reflexivity.
  - intros resp ip Hresp Hip Ht Hl. unfold run_script, dunder_main, try_except.
    rewrite (main_reaches_lookup _ _ _ _ _ Hkey Hne Hresp Hip Ht).
    rewrite bind_run. unfold check_ip_reputation, try_except, http_get.
    rewrite Hl. reflexivity.
  - intros resp ip payload j Hresp Hip Ht Hl Hp Hok Hbad Hj.
    unfold run_script, dunder_main, try_except.
    rewrite (main_reaches_save _ _ _ _ _ _ Hkey Hne Hresp Hip Ht Hl Hp).
    rewrite bind_run.
    by rewrite (save_first_fault_at_write _ _ _ _ _ _ j KeyboardInterrupt).
Qed.
End Further.

(** * Concrete runs *)

#[local] Existing Instance quoting_runtime.

(** The scenario of the specification: address 1.2.3.4, score 42, country
    Testland, three reports in total.  The whole file, as written. *)
Example scenario_report :
  files (save_results_to_file sample_ip (JDict [("data", JDict sparse_record)])
           OUTPUT_FOLDER OUTPUT_FILENAME good_env initial_world).2
    !! "./reports/ip-rep-report.txt"
  = Some (concat_chunks
            [ "============================================================" +:+ nl;
              "IP REPUTATION REPORT" +:+ nl;
              "============================================================" +:+ nl;
              nl;
              "IP Address: 1.2.3.4" +:+ nl;
              "Check Date: 2024-05-08 12:00:00" +:+ nl;
              nl;
              "Reputation Status: MODERATE RISK" +:+ nl;
              "Abuse Confidence Score: 42%" +:+ nl;
              nl;
              "Country: Testland (N/A)" +:+ nl;
              "ISP: Unknown" +:+ nl;
              "Domain: N/A" +:+ nl;
              "Usage Type: Unknown" +:+ nl;
              "Total Reports: 3" +:+ nl;
              "Distinct Users Reported: 0" +:+ nl;
              "Last Reported: Never" +:+ nl;
              "Whitelisted: No" +:+ nl;
              nl;
              "============================================================" +:+ nl ]).
Proof. vm_compute. reflexivity. Qed.

(** A key that is present with the value [null] is not missing: [get]
    returns [None] and the report prints it. *)
Example null_is_not_missing :
  "Last Reported: None" +:+ nl
    ∈ report_fields [("lastReportedAt", JNull)] "CLEAN" ∧
  "Last Reported: Never" +:+ nl ∈ report_fields [] "CLEAN".
Proof. split; vm_compute; set_solver. Qed.

(** C2, where the code departs from it.  The report folder cannot be created:
    [save_results_to_file] prints its error and returns [False], no file is
    written, and yet the status of the run is 0, not 1. *)
Theorem failed_write_exits_zero :
  let run := run_script read_only_env initial_world in
  fs_fault read_only_env 0
  = Some (OSError "[Errno 13] Permission denied: 'reports'") ∧
  (save_results_to_file sample_ip (JDict sample_payload) OUTPUT_FOLDER
     OUTPUT_FILENAME read_only_env (before_save sample_ip initial_world)).1
  = Ret false ∧
  run.1 = 0 ∧
  files run.2 = ∅ ∧
  last (stdout run.2)
  = Some (Colors.RED +:+ "Error saving file: "
          +:+ "[Errno 13] Permission denied: 'reports'" +:+ Colors.END).
Proof. vm_compute. by repeat split. Qed.

(** C7 as stated fails here: the lookup succeeds, the payload (an empty
    object) has no [data], no file-system operation can fail, and no report
    is written at all; the status is 1. *)
Lemma empty_payload_writes_nothing :
  let run := run_script empty_payload_env initial_world in
  abuseipdb empty_payload_env sample_ip "secret" = Ret (JDict []) ∧
  py_contains "data" (JDict []) = Ret false ∧
  no_faults empty_payload_env ∧
  run.1 = 1 ∧
  files run.2 !! report_path = None.
Proof. vm_compute. by repeat split. Qed.

(** C9 as stated fails here: the one operation that renders,
    [save_results_to_file], returns a boolean and has created a folder and a
    file that were not there. *)
Lemma save_results_to_file_writes :
  let run := save_results_to_file sample_ip JNull "out" "report.txt"
               good_env initial_world in
  files initial_world !! "out/report.txt" = None ∧
  files run.2 !! "out/report.txt" = Some ("No data received from API" +:+ nl) ∧
  dirs run.2 = {["out"]} ∧
  run.1 = Ret false.
Proof. vm_compute. by repeat split. Qed.

Lemma risk_status_thresholds_witness :
  0 ≤ 42 ≤ 100 ∧
  (∃ tier,
     risk_status (JInt 42) = Ret tier ∧
     (tier = "CLEAN" ↔ 42 = 0) ∧
     (tier = "LOW RISK" ↔ 1 ≤ 42 ≤ 24) ∧
     (tier = "MODERATE RISK" ↔ 25 ≤ 42 ≤ 74) ∧
     (tier = "HIGH RISK" ↔ 75 ≤ 42 ≤ 100)).
Proof. split; [lia | apply (risk_status_thresholds 42); lia]. Defined.

Lemma report_depends_on_inputs_only_witness :
  let run1 := save_results_to_file sample_ip (JDict sample_payload)
                "./reports" "a.txt" good_env initial_world in
  let run2 := save_results_to_file sample_ip (JDict sample_payload)
                "tmp/" "b.txt" good_env busy_world in
  run1.1 = run2.1 ∧
  files run1.2 !! "./reports/a.txt" = files run2.2 !! "tmp/b.txt" ∧
  is_Some (files run1.2 !! "./reports/a.txt").
Proof.
  apply (report_depends_on_inputs_only sample_ip (JDict sample_payload)
           good_env good_env initial_world busy_world
           "./reports" "a.txt" "tmp/" "b.txt");
    [reflexivity | intros n; reflexivity | intros n; reflexivity].
Defined.

Lemma first_five_reports_witness :
  length seven_reports = 7%nat ∧
  files (save_results_to_file sample_ip (JDict sample_payload) OUTPUT_FOLDER
           OUTPUT_FILENAME good_env initial_world).2 !! report_path
  = Some (concat_chunks
            (report_banner sample_ip "2024-05-08 12:00:00"
             ++ report_fields sample_record "MODERATE RISK"
             ++ [nl +:+ "Recent Reports:" +:+ nl] ++ first_five_lines
             ++ [report_foot])).
Proof.
  split; [reflexivity|].
  apply (first_five_reports sample_ip (JDict sample_payload) OUTPUT_FOLDER
           OUTPUT_FILENAME good_env initial_world sample_record
           "MODERATE RISK" seven_reports first_five_lines);
    [intros n; reflexivity | reflexivity | reflexivity | reflexivity
    | discriminate | reflexivity].
Defined.

Lemma no_data_report_witness :
  save_results_to_file sample_ip JNull "out" "report.txt" good_env busy_world
  = (Ret false,
     saved_world "out" "out/report.txt" ("No data received from API" +:+ nl)
       3 busy_world).
Proof.
  apply (no_data_report sample_ip JNull "out" "report.txt" good_env busy_world);
    [intros n; reflexivity | left; reflexivity].
Defined.

Lemma missing_fields_get_defaults_witness :
  "ISP: Unknown" +:+ nl ∈ report_fields sparse_record "MODERATE RISK" ∧
  "Domain: N/A" +:+ nl ∈ report_fields sparse_record "MODERATE RISK" ∧
  "Country: Testland (N/A)" +:+ nl
    ∈ report_fields sparse_record "MODERATE RISK" ∧
  "Whitelisted: No" +:+ nl ∈ report_fields sparse_record "MODERATE RISK".
Proof.
  destruct (missing_fields_get_defaults sample_ip
              (JDict [("data", JDict sparse_record)]) OUTPUT_FOLDER
              OUTPUT_FILENAME good_env initial_world sparse_record
              "MODERATE RISK" [])
    as (_ & _ & _ & _ & Hcode & Hplain & Hwhite);
    [intros n; reflexivity | reflexivity | reflexivity | reflexivity |].
  split; [|split; [|split]].
  - apply (Hplain "isp" (JStr "Unknown") "ISP: "); [|reflexivity].
    apply list_elem_of_here.
  - apply (Hplain "domain" (JStr "N/A") "Domain: "); [|reflexivity].
    apply list_elem_of_further, list_elem_of_here.
  - apply Hcode. reflexivity.
  - apply Hwhite. reflexivity.
Defined.

Lemma lookup_outcomes_witness :
  (run_script lookup_down_env initial_world).1 = 1 ∧
  files (run_script lookup_down_env initial_world).2 = ∅ ∧
  (save_results_to_file sample_ip (JDict [("errors", JList [])]) OUTPUT_FOLDER
     OUTPUT_FILENAME no_data_env (before_save sample_ip initial_world)).1
  = Ret false ∧
  files (run_script no_data_env initial_world).2
  = {[report_path := no_data_text]}.
Proof.
  destruct (lookup_outcomes lookup_down_env initial_world "secret"
              (JDict [("ip", sample_ip)]) sample_ip)
    as (Hdown & _ & _);
    [reflexivity | discriminate | reflexivity | reflexivity | reflexivity |].
  destruct (Hdown "429 Client Error: Too Many Requests")
    as (Hexit & Hfiles & _); [reflexivity|].
  destruct (lookup_outcomes no_data_env initial_world "secret"
              (JDict [("ip", sample_ip)]) sample_ip)
    as (_ & _ & Hnodata);
    [reflexivity | discriminate | reflexivity | reflexivity | reflexivity |].
  destruct (Hnodata (JDict [("errors", JList [])]))
    as (Hsave & Hwritten);
    [reflexivity | reflexivity | reflexivity | intros n; reflexivity |].
  split; [exact Hexit|]. split; [exact Hfiles|].
  split; [by rewrite Hsave | exact Hwritten].
Defined.

Lemma missing_key_exits_before_network_witness :
  (run_script no_key_env initial_world).1 = 1 ∧
  net_log (run_script no_key_env initial_world).2 = [] ∧
  files (run_script no_key_env initial_world).2 = ∅ ∧
  dirs (run_script no_key_env initial_world).2 = ∅.
Proof.
  apply (missing_key_exits_before_network no_key_env initial_world).
  left. reflexivity.
Defined.

Lemma resolver_outcomes_witness :
  run_script resolver_down_env initial_world
  = (1, with_stdout (Colors.RED +:+ "Error getting IP address: "
                     +:+ "HTTPSConnectionPool: Max retries exceeded"
                     +:+ Colors.END)
          (logged ipify_url (before_resolver initial_world))) ∧
  run_script odd_resolver_env initial_world
  = (1, logged ipify_url (before_resolver initial_world)).
Proof.
  split.
  - destruct (resolver_outcomes resolver_down_env initial_world "secret")
      as (Hdown & _ & _); [reflexivity | discriminate |].
    apply Hdown. reflexivity.
  - destruct (resolver_outcomes odd_resolver_env initial_world "secret")
      as (_ & Hodd & _); [reflexivity | discriminate |].
    apply (Hodd (JDict [("origin", sample_ip)]) (KeyError "ip"));
      reflexivity.
Defined.

Lemma end_to_end_success_witness :
  run_script good_env initial_world
  = (0,
     with_stdout (Colors.GREEN +:+ "Results saved to " +:+ report_path
                  +:+ Colors.END)
       (saved_world OUTPUT_FOLDER report_path
          (report_text sample_ip "2024-05-08 12:00:00" sample_record
             "MODERATE RISK"
             ((nl +:+ "Recent Reports:" +:+ nl) :: first_five_lines))
          24 (before_save sample_ip initial_world))).
Proof.
  apply (end_to_end_success good_env initial_world "secret"
           (JDict [("ip", sample_ip)]) sample_ip (JDict sample_payload)
           sample_record "MODERATE RISK"
           ((nl +:+ "Recent Reports:" +:+ nl) :: first_five_lines));
    [reflexivity | discriminate | reflexivity | reflexivity | reflexivity
    | reflexivity | reflexivity | reflexivity | reflexivity
    | intros n; reflexivity].
Defined.

Lemma save_returns_on_any_payload_witness :
  ∃ b, (save_results_to_file sample_ip (JInt 5) OUTPUT_FOLDER OUTPUT_FILENAME
          good_env busy_world).1 = Ret b.
Proof.
  apply (save_returns_on_any_payload sample_ip (JInt 5) OUTPUT_FOLDER
           OUTPUT_FILENAME good_env busy_world).
  intros n; reflexivity.
Defined.

Lemma non_object_payload_witness :
  files (save_results_to_file sample_ip (JStr "no data, try later")
           OUTPUT_FOLDER OUTPUT_FILENAME good_env initial_world).2
    !! report_path = Some "" ∧
  files (save_results_to_file sample_ip (JList [JStr "error"])
           OUTPUT_FOLDER OUTPUT_FILENAME good_env initial_world).2
    !! report_path = Some no_data_text.
Proof.
  split.
  - apply (non_object_payload sample_ip (JStr "no data, try later")
             OUTPUT_FOLDER OUTPUT_FILENAME good_env initial_world);
      [intros n; reflexivity | discriminate].
  - apply (non_object_payload sample_ip (JList [JStr "error"])
             OUTPUT_FOLDER OUTPUT_FILENAME good_env initial_world);
      [intros n; reflexivity | discriminate].
Defined.

Lemma bad_record_truncates_report_witness :
  files (save_results_to_file sample_ip
           (JDict [("data", JDict [("abuseConfidenceScore", JNull)])])
           OUTPUT_FOLDER OUTPUT_FILENAME good_env initial_world).2
    !! report_path
  = Some (concat_chunks (report_banner sample_ip "2024-05-08 12:00:00")).
Proof.
  apply (bad_record_truncates_report sample_ip
           (JDict [("data", JDict [("abuseConfidenceScore", JNull)])])
           (JDict [("abuseConfidenceScore", JNull)])
           OUTPUT_FOLDER OUTPUT_FILENAME good_env initial_world);
    [intros n; reflexivity | reflexivity |].
  intros d [= <-]. eexists. reflexivity.
Defined.


Lemma no_recent_section_witness :
  files (save_results_to_file sample_ip (JDict [("data", JDict sparse_record)])
           OUTPUT_FOLDER OUTPUT_FILENAME good_env initial_world).2
    !! report_path
  = Some (concat_chunks
            (report_banner sample_ip "2024-05-08 12:00:00"
             ++ report_fields sparse_record "MODERATE RISK"
             ++ [report_foot])).
Proof.
  apply (no_recent_section sample_ip (JDict [("data", JDict sparse_record)])
           OUTPUT_FOLDER OUTPUT_FILENAME good_env initial_world sparse_record
           "MODERATE RISK");
    [intros n; reflexivity | reflexivity | reflexivity | left; reflexivity].
Defined.

Lemma failed_write_leaves_partial_file_witness :
  files (save_results_to_file sample_ip (JDict sample_payload) OUTPUT_FOLDER
           OUTPUT_FILENAME disk_full_env initial_world).2 !! report_path
  = Some (str_repeat "=" 60 +:+ nl +:+ "IP REPUTATION REPORT" +:+ nl).
Proof.
  apply (failed_write_leaves_partial_file sample_ip (JDict sample_payload)
           OUTPUT_FOLDER OUTPUT_FILENAME disk_full_env initial_world 2
           (OSError "[Errno 28] No space left on device"));
    [ intros i Hi; do 4 (destruct i as [|i]; [reflexivity|]); cbn in Hi; lia
    | reflexivity | reflexivity | cbn; lia ].
Defined.


Lemma interrupt_is_a_clean_exit_witness :
  run_script interrupted_env initial_world
  = (0, cancelled (logged ipify_url (before_resolver initial_world))).
Proof.
  destruct (interrupt_is_a_clean_exit interrupted_env initial_world "secret")
    as (Hresolver & _); [reflexivity | discriminate |].
  apply Hresolver. reflexivity.
Defined.
